(** * pyads: the ADS client functions of [pyads/pyads.py]

    A shallow embedding of the module [pyads.pyads]: the error class
    [ADSError], the platform gate [win32_only] and the fifteen functions that
    wrap the calls of the TcAdsDll.  The DLL is an external collaborator: it is
    a deterministic oracle that answers every call from the history of the
    calls made so far.  Python exceptions are results of an error monad, the
    module-level dictionary [callback_store] and the log of DLL calls are the
    state that is threaded through every function. *)

From Stdlib Require Import ZArith NArith List Ascii String DecimalString Lia.
From Stdlib.Strings Require Import Byte.
From stdpp Require Import base option list gmap.

Local Open Scope Z_scope.

(** ** Bytes and machine integers *)

Abbreviation bytes := (list byte).

Definition byte_of_Z (z : Z) : byte :=
  match Byte.of_N (Z.to_N (z mod 256)) with
  | Some b => b
  | None => x00
  end.

Definition Z_of_byte (b : byte) : Z := Z.of_N (Byte.to_N b).

(** [n] bytes of [z], least significant first: the memory of a ctypes
    integer of [n] bytes on a little-endian machine. *)
Fixpoint le_bytes (n : nat) (z : Z) : bytes :=
  match n with
  | O => []
  | S n' => byte_of_Z z :: le_bytes n' (z / 256)
  end.

Fixpoint le_unsigned (bs : bytes) : Z :=
  match bs with
  | [] => 0
  | b :: bs' => Z_of_byte b + 256 * le_unsigned bs'
  end.

(** Wrap-around of a [w]-bit unsigned and signed C integer. *)
Definition wrap_unsigned (w : Z) (z : Z) : Z := z mod 2 ^ w.

Definition wrap_signed (w : Z) (z : Z) : Z :=
  let u := z mod 2 ^ w in
  if u <? 2 ^ (w - 1) then u else u - 2 ^ w.

Definition le_signed (bs : bytes) : Z :=
  wrap_signed (8 * Z.of_nat (length bs)) (le_unsigned bs).

(** A buffer of [n] bytes, zeroed by ctypes, after the DLL wrote [out] to it. *)
Definition fill (n : nat) (out : bytes) : bytes :=
  take n (out ++ repeat x00 n).

(** The bytes before the first null byte: the [.value] of a [c_char_p] and
    of a [c_char] array. *)
Fixpoint until_null (bs : bytes) : bytes :=
  match bs with
  | [] => []
  | b :: bs' => if Byte.eqb b x00 then [] else b :: until_null bs'
  end.

(** ** Python text *)

(** A [str] is a sequence of code points; Python holds only code points
    below [0x110000]. *)
Abbreviation str := (list N).

Definition lit (s : string) : str :=
  map N_of_ascii (list_ascii_of_string s).

(** [str(n)] / ["{}".format(n)] for an [int]. *)
Definition str_of_int (z : Z) : str :=
  lit (NilZero.string_of_int (Z.to_int z)).

Definition byte_of_N (n : N) : byte := byte_of_Z (Z.of_N n).

(** [str.encode()]: UTF-8, strict.  [None] is [UnicodeEncodeError] (a
    surrogate; a value that is not a code point is refused likewise). *)
Definition utf8_encode_cp (c : N) : option bytes :=
  (if c <? 0x80 then Some [byte_of_N c]
   else if c <? 0x800 then
     Some [byte_of_N (0xC0 + c / 0x40); byte_of_N (0x80 + c mod 0x40)]
   else if c <? 0x10000 then
     if (0xD800 <=? c) && (c <=? 0xDFFF) then None
     else Some [byte_of_N (0xE0 + c / 0x1000);
                byte_of_N (0x80 + (c / 0x40) mod 0x40);
                byte_of_N (0x80 + c mod 0x40)]
   else if c <? 0x110000 then
     Some [byte_of_N (0xF0 + c / 0x40000);
           byte_of_N (0x80 + (c / 0x1000) mod 0x40);
           byte_of_N (0x80 + (c / 0x40) mod 0x40);
           byte_of_N (0x80 + c mod 0x40)]
   else None)%N.

Fixpoint utf8_encode (s : str) : option bytes :=
  match s with
  | [] => Some []
  | c :: s' =>
      match utf8_encode_cp c, utf8_encode s' with
      | Some bs, Some bs' => Some (bs ++ bs')
      | _, _ => None
      end
  end.

Definition in_range (lo hi : N) (b : byte) : bool :=
  ((lo <=? Byte.to_N b) && (Byte.to_N b <=? hi))%N.

Definition cont (b : byte) : N := (Byte.to_N b - 0x80)%N.

(** [bytes.decode("utf-8")], strict: the well-formed byte sequences of the
    Unicode standard.  [None] is [UnicodeDecodeError]. *)
Fixpoint utf8_decode (bs : bytes) : option str :=
  match bs with
  | [] => Some []
  | b0 :: r0 =>
      if in_range 0x00 0x7F b0 then cons (Byte.to_N b0) <$> utf8_decode r0
      else
        match r0 with
        | [] => None
        | b1 :: r1 =>
            if in_range 0xC2 0xDF b0 && in_range 0x80 0xBF b1 then
              cons ((Byte.to_N b0 - 0xC0) * 0x40 + cont b1)%N <$> utf8_decode r1
            else
              match r1 with
              | [] => None
              | b2 :: r2 =>
                  if (in_range 0xE0 0xE0 b0 && in_range 0xA0 0xBF b1
                      || in_range 0xE1 0xEC b0 && in_range 0x80 0xBF b1
                      || in_range 0xED 0xED b0 && in_range 0x80 0x9F b1
                      || in_range 0xEE 0xEF b0 && in_range 0x80 0xBF b1)
                     && in_range 0x80 0xBF b2 then
                    cons ((Byte.to_N b0 - 0xE0) * 0x1000
                          + cont b1 * 0x40 + cont b2)%N <$> utf8_decode r2
                  else
                    match r2 with
                    | [] => None
                    | b3 :: r3 =>
                        if (in_range 0xF0 0xF0 b0 && in_range 0x90 0xBF b1
                            || in_range 0xF1 0xF3 b0 && in_range 0x80 0xBF b1
                            || in_range 0xF4 0xF4 b0 && in_range 0x80 0x8F b1)
                           && in_range 0x80 0xBF b2 && in_range 0x80 0xBF b3 then
                          cons ((Byte.to_N b0 - 0xF0) * 0x40000
                                + cont b1 * 0x1000 + cont b2 * 0x40
                                + cont b3)%N <$> utf8_decode r3
                        else None
                    end
              end
        end
  end.

(** ** Python values and exceptions *)

#[warnings="-register-all"] Inductive pyval :=
  | VNone
  | VBool (b : bool)
  | VInt (z : Z)
  | VStr (s : str)
  | VBytes (bs : bytes)
  | VList (l : list pyval).

(** The exceptions the module raises or lets through.  [ADSError] carries
    the two attributes its constructor sets; the messages of the built-in
    exceptions other than that of the platform gate are left out. *)
Inductive exn :=
  | ADSError (err_code : Z) (msg : str)
  | RuntimeError (msg : str)
  | TypeError
  | IndexError
  | AttributeError
  | UnicodeEncodeError
  | UnicodeDecodeError.

Inductive Result (A : Type) :=
  | Ok (a : A)
  | Raise (e : exn).
Arguments Ok {A} a.
Arguments Raise {A} e.

Definition encode (s : str) : Result bytes :=
  match utf8_encode s with
  | Some bs => Ok bs
  | None => Raise UnicodeEncodeError
  end.

Definition decode (bs : bytes) : Result str :=
  match utf8_decode bs with
  | Some s => Ok s
  | None => Raise UnicodeDecodeError
  end.

(** [bool(v)] *)
Definition truthy (v : pyval) : bool :=
  match v with
  | VNone => false
  | VBool b => b
  | VInt z => negb (z =? 0)
  | VStr s => negb (Nat.eqb (length s) 0)
  | VBytes bs => negb (Nat.eqb (length bs) 0)
  | VList l => negb (Nat.eqb (length l) 0)
  end.

(** ** ctypes

    The simple types a PLC type can be, and arrays of them.  Sizes are those
    of win32, the only platform the DLL exists on: [c_long] and [c_ulong] are
    four bytes and [c_int] is [c_long].  Floating-point types and structures are
    outside the model. *)

Inductive width := W1 | W2 | W4 | W8.

Definition width_bytes (w : width) : nat :=
  match w with W1 => 1 | W2 => 2 | W4 => 4 | W8 => 8 end%nat.

Inductive scalar :=
  | c_char
  | c_bool
  | c_integer (signed : bool) (w : width).

Inductive ctype :=
  | Simple (s : scalar)
  | PyCArrayType (elt : scalar) (len : nat).

Definition c_long : ctype := Simple (c_integer true W4).
Definition c_ulong : ctype := Simple (c_integer false W4).
Definition c_int : ctype := c_long.

Definition scalar_eqb (a b : scalar) : bool :=
  match a, b with
  | c_char, c_char => true
  | c_bool, c_bool => true
  | c_integer s1 w1, c_integer s2 w2 =>
      Bool.eqb s1 s2 && Nat.eqb (width_bytes w1) (width_bytes w2)
  | _, _ => false
  end.

(** [t1 == t2] on ctypes types *)
Definition ctype_eqb (a b : ctype) : bool :=
  match a, b with
  | Simple s1, Simple s2 => scalar_eqb s1 s2
  | PyCArrayType e1 n1, PyCArrayType e2 n2 => scalar_eqb e1 e2 && Nat.eqb n1 n2
  | _, _ => false
  end.

Definition scalar_size (s : scalar) : nat :=
  match s with
  | c_char => 1
  | c_bool => 1
  | c_integer _ w => width_bytes w
  end.

Definition sizeof (t : ctype) : nat :=
  match t with
  | Simple s => scalar_size s
  | PyCArrayType e n => (n * scalar_size e)%nat
  end.

(** Storing a Python value into a field of a simple type: [c_char] takes one
    byte or an integer in [range(256)], [c_bool] the truth value of anything,
    the integer types any [int] (a [bool] is one), kept modulo the width. *)
Definition scalar_set (s : scalar) (v : pyval) : Result bytes :=
  match s with
  | c_char =>
      match v with
      | VBytes [b] => Ok [b]
      | VInt z => if (0 <=? z) && (z <? 256) then Ok [byte_of_Z z] else Raise TypeError
      | VBool b => Ok [if b then x01 else x00]
      | _ => Raise TypeError
      end
  | c_bool => Ok [if truthy v then x01 else x00]
  | c_integer _ w =>
      match v with
      | VInt z => Ok (le_bytes (width_bytes w) z)
      | VBool b => Ok (le_bytes (width_bytes w) (if b then 1 else 0))
      | _ => Raise TypeError
      end
  end.

(** Reading a field of a simple type: what [.value] and indexing return. *)
Definition scalar_get (s : scalar) (bs : bytes) : pyval :=
  match s with
  | c_char => VBytes bs
  | c_bool => VBool (negb (le_unsigned bs =? 0))
  | c_integer true _ => VInt (le_signed bs)
  | c_integer false _ => VInt (le_unsigned bs)
  end.

(** The initialisation of an array instance of [len] items from the
    positional arguments: ctypes stores them one by one, in order, each at
    its index; an index past the end of the array is an [IndexError], a value
    the item type refuses a [TypeError], whichever comes first. *)
Fixpoint array_init (e : scalar) (len : nat) (args : list pyval) {struct args} :
    Result bytes :=
  match args with
  | [] => Ok []
  | v :: args' =>
      match len with
      | O => Raise IndexError
      | S len' =>
          match scalar_set e v with
          | Ok bs =>
              match array_init e len' args' with
              | Ok bs' => Ok (bs ++ bs')
              | Raise x => Raise x
              end
          | Raise x => Raise x
          end
      end
  end.

(** Instantiating [t] with positional arguments: the instance is zeroed and
    then initialised from them; the result is its memory. *)
Definition c_new (t : ctype) (args : list pyval) : Result bytes :=
  match t with
  | Simple s =>
      match args with
      | [] => Ok (repeat x00 (scalar_size s))
      | [v] => scalar_set s v
      | _ => Raise TypeError
      end
  | PyCArrayType e n =>
      match array_init e n args with
      | Ok bs => Ok (fill (n * scalar_size e) bs)
      | Raise x => Raise x
      end
  end.

(** Unpacking [value] into positional arguments (the star of a call). *)
Definition star (value : pyval) : Result (list pyval) :=
  match value with
  | VList l => Ok l
  | VStr s => Ok (map (fun c => VStr [c]) s)
  | VBytes bs => Ok (map (fun b => VInt (Z_of_byte b)) bs)
  | _ => Raise TypeError
  end.

Fixpoint chunks (k : nat) (n : nat) (bs : bytes) : list bytes :=
  match n with
  | O => []
  | S n' => take k bs :: chunks k n' (drop k bs)
  end.

(** [[i for i in data]] for an array instance *)
Definition array_items (e : scalar) (n : nat) (bs : bytes) : list pyval :=
  map (scalar_get e) (chunks (scalar_size e) n bs).

(** ** What the module imports *)

(** Modelled from the spec: [pyads.structs] is not part of the sources.  An
    address is a six-byte network identity and a port; [amsAddrStruct()] is
    the value itself. *)
Record AmsAddr := { net_id : bytes; port : Z }.

(** Modelled from the spec: [pyads.structs] is not part of the sources.  The
    version triple of the DLL and of a device; the structure [SAdsVersion]
    is one byte of version, one of revision and two of build. *)
Record AdsVersion := { version : Z; revision : Z; build : Z }.

Definition AdsVersion_of (st : bytes) : AdsVersion :=
  {| version := le_unsigned (take 1 st);
     revision := le_unsigned (take 1 (drop 1 st));
     build := le_unsigned (take 2 (drop 2 st)) |}.

Definition AmsAddr_of (st : bytes) : AmsAddr :=
  {| net_id := take 6 st; port := le_unsigned (take 2 (drop 6 st)) |}.

(** Modelled from the spec: [pyads.structs] is not part of the sources.  The
    settings of a notification; [notificationAttribStruct()] is the value
    itself. *)
Record NotificationAttrib :=
  { attr_length : Z; trans_mode : Z; max_delay : Z; cycle_time : Z }.

(** A Python callable, by identity. *)
Definition Callback := nat.

(** The calls of the TcAdsDll, with the C arguments the module passes: a
    pointer to data the DLL reads is the bytes it reads, a pointer to a
    buffer the DLL fills is left out (its length is an argument where the
    DLL takes one). *)
Inductive Call :=
  | AdsGetDllVersion
  | AdsPortOpen
  | AdsPortClose
  | AdsGetLocalAddress
  | AdsSyncReadStateReq (adr : AmsAddr)
  | AdsSyncReadDeviceInfoReq (adr : AmsAddr)
  | AdsSyncWriteControlReq (adr : AmsAddr) (adsState deviceState : Z)
      (nLength : Z) (data : bytes)
  | AdsSyncWriteReq (adr : AmsAddr) (indexGroup indexOffset : Z)
      (nLength : Z) (data : bytes)
  | AdsSyncReadWriteReq (adr : AmsAddr) (indexGroup indexOffset : Z)
      (nReadLength : Z) (nWriteLength : Z) (data : bytes)
  | AdsSyncReadReq (adr : AmsAddr) (indexGroup indexOffset : Z) (nLength : Z)
  | AdsSyncAddDeviceNotificationReq (adr : AmsAddr) (indexGroup indexOffset : Z)
      (attrib : NotificationAttrib) (callback : Callback) (hUser : Z)
  | AdsSyncDelDeviceNotificationReq (adr : AmsAddr) (hNotification : Z)
  | AdsSyncSetTimeout (nMs : Z).

(** The answer of the DLL: the C return value and what it wrote through
    its first and second output pointer. *)
Record Response := { ret : Z; out : bytes; out2 : bytes }.

(** The environment of the module: [platform_is_windows()] of
    [pyads.utils], the table of [pyads.errorcodes], the constants of
    [pyads.constants] that are plain numbers, and the DLL, which answers a
    call from the calls made before it. *)
Record Env := {
  platform_is_windows : bool;
  ERROR_CODES : gmap Z str;
  ADSIGRP_SYM_HNDBYNAME : Z;
  ADSIGRP_SYM_VALBYHND : Z;
  ADSIGRP_SYM_RELEASEHND : Z;
  STRING_BUFFER : nat;
  _adsDLL : list Call -> Call -> Response
}.

(** [PLCTYPE_STRING] is [c_char]: the module builds [STRING_BUFFER *
    PLCTYPE_STRING] and decodes the [.value] of the instance, which only an
    array of [c_char] has as bytes. *)
Definition PLCTYPE_STRING : ctype := Simple c_char.

(** Modelled from the spec: [pyads.constants] is not part of the sources.  A
    handle is an opaque [u32]; [PLCTYPE_UDINT] is [c_ulong]. *)
Definition PLCTYPE_UDINT : ctype := c_ulong.

(** ** State and effects *)

(** The state the functions act on: the calls made to the DLL, oldest
    first, and the module-level dictionary [callback_store]. *)
Record World := {
  trace : list Call;
  callback_store : gmap Z (option Callback)
}.

Definition M (A : Type) : Type := World -> Result A * World.

Definition ret_M {A} (a : A) : M A := fun w => (Ok a, w).

Definition bind_M {A B} (m : M A) (k : A -> M B) : M B :=
  fun w =>
    match m w with
    | (Ok a, w') => k a w'
    | (Raise e, w') => (Raise e, w')
    end.

Definition raise {A} (e : exn) : M A := fun w => (Raise e, w).

(** A computation that touches no state. *)
Definition pure {A} (r : Result A) : M A := fun w => (r, w).

Notation "'let*' x ':=' m 'in' k" := (bind_M m (fun x => k))
  (at level 10, x pattern, m at level 100, k at level 200).

(** Calling a function of the DLL: the answer depends on the calls before,
    the call is logged. *)
Definition log (w : World) (c : Call) : World :=
  {| trace := trace w ++ [c]; callback_store := callback_store w |}.

(** The state after [callback_store[key] = value]. *)
Definition store (w : World) (key : Z) (value : option Callback) : World :=
  {| trace := trace w; callback_store := <[key := value]> (callback_store w) |}.

Definition call_dll (env : Env) (c : Call) : M Response :=
  fun w => (Ok (_adsDLL env (trace w) c), log w c).

(** Conversion of the C return value by the [restype] of the function:
    [c_int] (the default) and [c_long] are signed, [c_ulong] is not. *)
Definition restype_c_int (r : Z) : Z := wrap_signed 32 r.
Definition restype_c_long (r : Z) : Z := wrap_signed 32 r.
Definition restype_c_ulong (r : Z) : Z := wrap_unsigned 32 r.

(** ** The module *)

Section Pyads.

Context (env : Env).

(** [ADSError.__init__]: the description of the table with the code in
    brackets, or that of an unknown error when the lookup raises [KeyError]. *)
Definition ADSError_init (err_code : Z) : exn :=
  ADSError err_code
    match ERROR_CODES env !! err_code with
    | Some description => description ++ lit " (" ++ str_of_int err_code ++ lit ")"
    | None => lit "Unknown Error (" ++ str_of_int err_code ++ lit ")"
    end.

(** [ADSError.__str__] *)
Definition ADSError_str (e : exn) : str :=
  match e with
  | ADSError _ msg => lit "ADSError: " ++ msg
  | _ => []
  end.

(** The decorator: [fn_name] is [fn.__name__], [fn] the call of the wrapped
    function on the arguments the wrapper got. *)
Definition win32_only {A} (fn_name : string) (fn : M A) : M A :=
  fun w =>
    if negb (platform_is_windows env) then
      raise (RuntimeError
               (lit fn_name ++ lit " is only supported when using the TcAdsDll (win32).")) w
    else fn w.

(** [if errCode: raise ADSError(errCode)] *)
Definition check_errCode (errCode : Z) : M unit :=
  if negb (errCode =? 0) then raise (ADSError_init errCode) else ret_M tt.

Definition adsGetDllVersion : M AdsVersion :=
  win32_only "adsGetDllVersion" (
    let* r := call_dll env AdsGetDllVersion in
    let resLong := le_bytes 4 (wrap_signed 32 (restype_c_int (ret r))) in
    let stVersion := repeat x00 4 in
    let fit := Nat.min (length stVersion) (length resLong) in
    let stVersion := take fit resLong ++ drop fit stVersion in
    ret_M (AdsVersion_of stVersion)).

Definition adsPortOpen : M Z :=
  win32_only "adsPortOpen" (
    let* r := call_dll env AdsPortOpen in
    let portNr := restype_c_long (ret r) in
    ret_M portNr).

Definition adsPortClose : M unit :=
  win32_only "adsPortClose" (
    let* r := call_dll env AdsPortClose in
    let errCode := restype_c_long (ret r) in
    check_errCode errCode).

Definition adsGetLocalAddress : M AmsAddr :=
  win32_only "adsGetLocalAddress" (
    let* r := call_dll env AdsGetLocalAddress in
    let stAmsAddr := fill 8 (out r) in
    let errCode := restype_c_int (ret r) in
    let* _ := check_errCode errCode in
    ret_M (AmsAddr_of stAmsAddr)).

Definition adsSyncReadStateReq (adr : AmsAddr) : M (Z * Z) :=
  win32_only "adsSyncReadStateReq" (
    let* r := call_dll env (AdsSyncReadStateReq adr) in
    let adsState := fill 4 (out r) in
    let deviceState := fill 4 (out2 r) in
    let errCode := restype_c_int (ret r) in
    let* _ := check_errCode errCode in
    ret_M (le_signed adsState, le_signed deviceState)).

Definition adsSyncReadDeviceInfoReq (adr : AmsAddr) : M (str * AdsVersion) :=
  win32_only "adsSyncReadDeviceInfoReq" (
    let* r := call_dll env (AdsSyncReadDeviceInfoReq adr) in
    let devNameStringBuffer := fill 20 (out r) in
    let stVersion := fill 4 (out2 r) in
    let errCode := restype_c_int (ret r) in
    let* _ := check_errCode errCode in
    let* name := pure (decode (until_null devNameStringBuffer)) in
    ret_M (name, AdsVersion_of stVersion)).

(** The string branch of the two write functions: [nData =
    c_char_p(value.encode())], [nLength = len(pData.value) + 1]; the DLL
    reads [nLength] bytes of the encoded text and the null byte that ends it
    in memory. *)
Definition c_char_p_payload (value : pyval) : Result (Z * bytes) :=
  match value with
  | VStr s =>
      match encode s with
      | Ok nData =>
          let nLength := (length (until_null nData) + 1)%nat in
          Ok (Z.of_nat nLength, take nLength (nData ++ [x00]))
      | Raise x => Raise x
      end
  | _ => Raise AttributeError
  end.

(** The instance [nData] of a type other than the string type, with its
    [sizeof]. *)
Definition sized (plcDataType : ctype) (nData : Result bytes) : Result (Z * bytes) :=
  match nData with
  | Ok nData => Ok (Z.of_nat (sizeof plcDataType), nData)
  | Raise x => Raise x
  end.

(** [adsSyncWriteControlReq], the branch on the type: [nLength] and what
    [pData] points to. *)
Definition control_data (data : pyval) (plcDataType : ctype) : Result (Z * bytes) :=
  if ctype_eqb plcDataType PLCTYPE_STRING then c_char_p_payload data
  else sized plcDataType (c_new plcDataType [data]).

Definition adsSyncWriteControlReq (adr : AmsAddr) (adsState deviceState : Z)
    (data : pyval) (plcDataType : ctype) : M unit :=
  win32_only "adsSyncWriteControlReq" (
    let nAdsState := wrap_unsigned 32 adsState in
    let nDeviceState := wrap_unsigned 32 deviceState in
    let* (nLength, pData) := pure (control_data data plcDataType) in
    let* r := call_dll env
                (AdsSyncWriteControlReq adr nAdsState nDeviceState nLength pData) in
    let errCode := restype_c_int (ret r) in
    check_errCode errCode).

Definition is_PyCArrayType (t : ctype) : bool :=
  match t with PyCArrayType _ _ => true | Simple _ => false end.

(** [adsSyncWriteReq], the branch on the type: [nLength] and what [pData]
    points to. *)
Definition write_data (value : pyval) (plcDataType : ctype) : Result (Z * bytes) :=
  if ctype_eqb plcDataType PLCTYPE_STRING then c_char_p_payload value
  else
    sized plcDataType
      (if is_PyCArrayType plcDataType then
         match star value with
         | Ok args => c_new plcDataType args
         | Raise x => Raise x
         end
       else c_new plcDataType [value]).

Definition adsSyncWriteReq (adr : AmsAddr) (indexGroup indexOffset : Z)
    (value : pyval) (plcDataType : ctype) : M unit :=
  win32_only "adsSyncWriteReq" (
    let nIndexGroup := wrap_unsigned 32 indexGroup in
    let nIndexOffset := wrap_unsigned 32 indexOffset in
    let* (nLength, pData) := pure (write_data value plcDataType) in
    let* r := call_dll env
                (AdsSyncWriteReq adr nIndexGroup nIndexOffset nLength pData) in
    let errCode := restype_c_int (ret r) in
    check_errCode errCode).

(** What the two read functions return from the filled instance [data] of
    [plcDataType], after the string case: the items of an array, else the
    [.value] every simple type has. *)
Definition read_result (plcDataType : ctype) (data : bytes) : pyval :=
  match plcDataType with
  | PyCArrayType e n => VList (array_items e n data)
  | Simple s => scalar_get s data
  end.

(** [adsSyncReadWriteReq], the branch on the write type: [data_length] and
    what [data] points to.  The length of a string is that of the text, in
    code points, and one more. *)
Definition readwrite_data (value : pyval) (plcWriteDataType : ctype) : Result (Z * bytes) :=
  if ctype_eqb plcWriteDataType PLCTYPE_STRING then
    match value with
    | VStr s =>
        match encode s with
        | Ok ascii_string =>
            let data_length := (length s + 1)%nat in
            Ok (Z.of_nat data_length, take data_length (ascii_string ++ [x00]))
        | Raise x => Raise x
        end
    | _ => Raise AttributeError
    end
  else sized plcWriteDataType (c_new plcWriteDataType [value]).

Definition adsSyncReadWriteReq (adr : AmsAddr) (indexGroup indexOffset : Z)
    (plcReadDataType : ctype) (value : pyval) (plcWriteDataType : ctype) : M pyval :=
  win32_only "adsSyncReadWriteReq" (
    let nIndexGroup := wrap_unsigned 32 indexGroup in
    let nIndexOffset := wrap_unsigned 32 indexOffset in
    let nReadLength := wrap_unsigned 32 (Z.of_nat (sizeof plcReadDataType)) in
    let* (data_length, data) := pure (readwrite_data value plcWriteDataType) in
    let* r := call_dll env
                (AdsSyncReadWriteReq adr nIndexGroup nIndexOffset nReadLength
                   data_length data) in
    let readData := fill (sizeof plcReadDataType) (out r) in
    let err_code := restype_c_int (ret r) in
    let* _ := check_errCode err_code in
    if ctype_eqb plcReadDataType PLCTYPE_STRING then
      let* s := pure (decode readData) in ret_M (VStr s)
    else ret_M (read_result plcReadDataType readData)).

(** [adsSyncReadReq]: the size of the instance [data], an array of
    [STRING_BUFFER] characters for the string type. *)
Definition read_size (plcDataType : ctype) : nat :=
  if ctype_eqb plcDataType PLCTYPE_STRING then
    sizeof (PyCArrayType c_char (STRING_BUFFER env))
  else sizeof plcDataType.

Definition adsSyncReadReq (adr : AmsAddr) (indexGroup indexOffset : Z)
    (plcDataType : ctype) : M pyval :=
  win32_only "adsSyncReadReq" (
    let nIndexGroup := wrap_unsigned 32 indexGroup in
    let nIndexOffset := wrap_unsigned 32 indexOffset in
    let size := read_size plcDataType in
    let nLength := wrap_unsigned 32 (Z.of_nat size) in
    let* r := call_dll env (AdsSyncReadReq adr nIndexGroup nIndexOffset nLength) in
    let data := fill size (out r) in
    let errCode := restype_c_int (ret r) in
    let* _ := check_errCode errCode in
    if ctype_eqb plcDataType PLCTYPE_STRING then
      let* s := pure (decode (until_null data)) in ret_M (VStr s)
    else ret_M (read_result plcDataType data)).

(** An argument annotated [int] that the caller got as a Python value: the
    conversion to [c_ulong] refuses what is not an [int]. *)
Definition as_int (v : pyval) : Result Z :=
  match v with
  | VInt z => Ok z
  | VBool b => Ok (if b then 1 else 0)
  | _ => Raise TypeError
  end.

Definition adsSyncReadByName (adr : AmsAddr) (dataName : str)
    (plcDataType : ctype) : M pyval :=
  win32_only "adsSyncReadByName" (
    let* hnl := adsSyncReadWriteReq adr (ADSIGRP_SYM_HNDBYNAME env) 0x0
                  PLCTYPE_UDINT (VStr dataName) PLCTYPE_STRING in
    let* offset := pure (as_int hnl) in
    let* value := adsSyncReadReq adr (ADSIGRP_SYM_VALBYHND env) offset plcDataType in
    let* _ := adsSyncWriteReq adr (ADSIGRP_SYM_RELEASEHND env) 0 hnl PLCTYPE_UDINT in
    ret_M value).

Definition adsSyncWriteByName (adr : AmsAddr) (dataName : str) (value : pyval)
    (plcDataType : ctype) : M unit :=
  win32_only "adsSyncWriteByName" (
    let* hnl := adsSyncReadWriteReq adr (ADSIGRP_SYM_HNDBYNAME env) 0x0
                  PLCTYPE_UDINT (VStr dataName) PLCTYPE_STRING in
    let* offset := pure (as_int hnl) in
    let* _ := adsSyncWriteReq adr (ADSIGRP_SYM_VALBYHND env) offset value plcDataType in
    adsSyncWriteReq adr (ADSIGRP_SYM_RELEASEHND env) 0 hnl PLCTYPE_UDINT).

(** [NOTEFUNC]: [None], and the function type of the callbacks on Windows. *)
Definition NOTEFUNC : option unit :=
  if platform_is_windows env then Some tt else None.

(** [callback_store[key] = value] *)
Definition callback_store_set (key : Z) (value : option Callback) : M unit :=
  fun w => (Ok tt, store w key value).

Definition adsSyncAddDeviceNotificationReq (adr : AmsAddr) (data_name : str)
    (pNoteAttrib : NotificationAttrib) (callback : Callback)
    (user_handle : option Z) : M (Z * pyval) :=
  win32_only "adsSyncAddDeviceNotificationReq" (
    let* hnl := adsSyncReadWriteReq adr (ADSIGRP_SYM_HNDBYNAME env) 0x0
                  PLCTYPE_UDINT (VStr data_name) PLCTYPE_STRING in
    let nIndexGroup := wrap_unsigned 32 (ADSIGRP_SYM_VALBYHND env) in
    let* h := pure (as_int hnl) in
    let nIndexOffset := wrap_unsigned 32 h in
    let attrib := pNoteAttrib in
    let nHUser :=
      match user_handle with
      | Some user_handle => wrap_unsigned 32 user_handle
      | None => wrap_unsigned 32 h
      end in
    match NOTEFUNC with
    | None => raise TypeError
    | Some _ =>
        let c_callback := callback in
        let* r := call_dll env
                    (AdsSyncAddDeviceNotificationReq adr nIndexGroup nIndexOffset
                       attrib c_callback nHUser) in
        let pNotification := le_unsigned (fill 4 (out r)) in
        let err_code := restype_c_ulong (ret r) in
        let* _ := check_errCode err_code in
        let* _ := callback_store_set pNotification (Some c_callback) in
        ret_M (pNotification, hnl)
    end).

Definition adsSyncDelDeviceNotificationReq (adr : AmsAddr)
    (notification_handle user_handle : Z) : M unit :=
  win32_only "adsSyncDelDeviceNotificationReq" (
    let nHNotification := wrap_unsigned 32 notification_handle in
    let* r := call_dll env (AdsSyncDelDeviceNotificationReq adr nHNotification) in
    let err_code := restype_c_int (ret r) in
    let* _ := callback_store_set notification_handle None in
    let* _ := check_errCode err_code in
    adsSyncWriteReq adr (ADSIGRP_SYM_RELEASEHND env) 0 (VInt user_handle) PLCTYPE_UDINT).

Definition adsSyncSetTimeout (nMs : Z) : M unit :=
  win32_only "adsSyncSetTimeout" (
    let cms := wrap_signed 32 nMs in
    let* r := call_dll env (AdsSyncSetTimeout cms) in
    let err_code := restype_c_int (ret r) in
    check_errCode err_code).

(** A call of one of the public functions with its arguments, and what it
    returns. *)
Inductive Invocation :=
  | CallGetDllVersion
  | CallPortOpen
  | CallPortClose
  | CallGetLocalAddress
  | CallReadStateReq (adr : AmsAddr)
  | CallReadDeviceInfoReq (adr : AmsAddr)
  | CallWriteControlReq (adr : AmsAddr) (adsState deviceState : Z)
      (data : pyval) (plcDataType : ctype)
  | CallWriteReq (adr : AmsAddr) (indexGroup indexOffset : Z)
      (value : pyval) (plcDataType : ctype)
  | CallReadWriteReq (adr : AmsAddr) (indexGroup indexOffset : Z)
      (plcReadDataType : ctype) (value : pyval) (plcWriteDataType : ctype)
  | CallReadReq (adr : AmsAddr) (indexGroup indexOffset : Z) (plcDataType : ctype)
  | CallReadByName (adr : AmsAddr) (dataName : str) (plcDataType : ctype)
  | CallWriteByName (adr : AmsAddr) (dataName : str) (value : pyval)
      (plcDataType : ctype)
  | CallAddDeviceNotificationReq (adr : AmsAddr) (data_name : str)
      (pNoteAttrib : NotificationAttrib) (callback : Callback)
      (user_handle : option Z)
  | CallDelDeviceNotificationReq (adr : AmsAddr) (notification_handle user_handle : Z)
  | CallSetTimeout (nMs : Z).

Inductive Returned :=
  | RNone
  | RValue (v : pyval)
  | RInt (z : Z)
  | RVersion (v : AdsVersion)
  | RAddr (a : AmsAddr)
  | RStates (adsState deviceState : Z)
  | RDeviceInfo (name : str) (v : AdsVersion)
  | RNotification (notification_handle : Z) (hnl : pyval).

Definition map_M {A B} (f : A -> B) (m : M A) : M B :=
  let* a := m in ret_M (f a).

Definition invoke (i : Invocation) : M Returned :=
  match i with
  | CallGetDllVersion => map_M RVersion adsGetDllVersion
  | CallPortOpen => map_M RInt adsPortOpen
  | CallPortClose => map_M (fun _ => RNone) adsPortClose
  | CallGetLocalAddress => map_M RAddr adsGetLocalAddress
  | CallReadStateReq adr =>
      map_M (fun p => RStates (fst p) (snd p)) (adsSyncReadStateReq adr)
  | CallReadDeviceInfoReq adr =>
      map_M (fun p => RDeviceInfo (fst p) (snd p)) (adsSyncReadDeviceInfoReq adr)
  | CallWriteControlReq adr adsState deviceState data plcDataType =>
      map_M (fun _ => RNone)
        (adsSyncWriteControlReq adr adsState deviceState data plcDataType)
  | CallWriteReq adr indexGroup indexOffset value plcDataType =>
      map_M (fun _ => RNone)
        (adsSyncWriteReq adr indexGroup indexOffset value plcDataType)
  | CallReadWriteReq adr indexGroup indexOffset plcReadDataType value plcWriteDataType =>
      map_M RValue
        (adsSyncReadWriteReq adr indexGroup indexOffset plcReadDataType value
           plcWriteDataType)
  | CallReadReq adr indexGroup indexOffset plcDataType =>
      map_M RValue (adsSyncReadReq adr indexGroup indexOffset plcDataType)
  | CallReadByName adr dataName plcDataType =>
      map_M RValue (adsSyncReadByName adr dataName plcDataType)
  | CallWriteByName adr dataName value plcDataType =>
      map_M (fun _ => RNone) (adsSyncWriteByName adr dataName value plcDataType)
  | CallAddDeviceNotificationReq adr data_name pNoteAttrib callback user_handle =>
      map_M (fun p => RNotification (fst p) (snd p))
        (adsSyncAddDeviceNotificationReq adr data_name pNoteAttrib callback
           user_handle)
  | CallDelDeviceNotificationReq adr notification_handle user_handle =>
      map_M (fun _ => RNone)
        (adsSyncDelDeviceNotificationReq adr notification_handle user_handle)
  | CallSetTimeout nMs => map_M (fun _ => RNone) (adsSyncSetTimeout nMs)
  end.

(** The [__name__] of the function an invocation calls. *)
Definition fn_name (i : Invocation) : string :=
  match i with
  | CallGetDllVersion => "adsGetDllVersion"
  | CallPortOpen => "adsPortOpen"
  | CallPortClose => "adsPortClose"
  | CallGetLocalAddress => "adsGetLocalAddress"
  | CallReadStateReq _ => "adsSyncReadStateReq"
  | CallReadDeviceInfoReq _ => "adsSyncReadDeviceInfoReq"
  | CallWriteControlReq _ _ _ _ _ => "adsSyncWriteControlReq"
  | CallWriteReq _ _ _ _ _ => "adsSyncWriteReq"
  | CallReadWriteReq _ _ _ _ _ _ => "adsSyncReadWriteReq"
  | CallReadReq _ _ _ _ => "adsSyncReadReq"
  | CallReadByName _ _ _ => "adsSyncReadByName"
  | CallWriteByName _ _ _ _ => "adsSyncWriteByName"
  | CallAddDeviceNotificationReq _ _ _ _ _ => "adsSyncAddDeviceNotificationReq"
  | CallDelDeviceNotificationReq _ _ _ => "adsSyncDelDeviceNotificationReq"
  | CallSetTimeout _ => "adsSyncSetTimeout"
  end.

(** The four functions of the request layer. *)
Definition request_layer (i : Invocation) : bool :=
  match i with
  | CallReadReq _ _ _ _ | CallWriteReq _ _ _ _ _
  | CallReadWriteReq _ _ _ _ _ _ | CallWriteControlReq _ _ _ _ _ => true
  | _ => false
  end.

(** What a function of the request layer builds before it calls the DLL: the
    call with its C arguments, or the exception that building them raises. *)
Definition c_arguments (i : Invocation) : Result Call :=
  match i with
  | CallWriteControlReq adr adsState deviceState data plcDataType =>
      match control_data data plcDataType with
      | Ok (nLength, pData) =>
          Ok (AdsSyncWriteControlReq adr (wrap_unsigned 32 adsState)
                (wrap_unsigned 32 deviceState) nLength pData)
      | Raise x => Raise x
      end
  | CallWriteReq adr indexGroup indexOffset value plcDataType =>
      match write_data value plcDataType with
      | Ok (nLength, pData) =>
          Ok (AdsSyncWriteReq adr (wrap_unsigned 32 indexGroup)
                (wrap_unsigned 32 indexOffset) nLength pData)
      | Raise x => Raise x
      end
  | CallReadWriteReq adr indexGroup indexOffset plcReadDataType value
      plcWriteDataType =>
      match readwrite_data value plcWriteDataType with
      | Ok (data_length, data) =>
          Ok (AdsSyncReadWriteReq adr (wrap_unsigned 32 indexGroup)
                (wrap_unsigned 32 indexOffset)
                (wrap_unsigned 32 (Z.of_nat (sizeof plcReadDataType)))
                data_length data)
      | Raise x => Raise x
      end
  | CallReadReq adr indexGroup indexOffset plcDataType =>
      Ok (AdsSyncReadReq adr (wrap_unsigned 32 indexGroup)
            (wrap_unsigned 32 indexOffset)
            (wrap_unsigned 32 (Z.of_nat (read_size plcDataType))))
  | _ => Raise TypeError
  end.

(** ** Observations on the log of calls *)

(** A handle-release request: a write to the release group at offset zero;
    its data is the handle. *)
Definition is_release (c : Call) : bool :=
  match c with
  | AdsSyncWriteReq _ indexGroup indexOffset _ _ =>
      (indexGroup =? wrap_unsigned 32 (ADSIGRP_SYM_RELEASEHND env))
      && (indexOffset =? 0)
  | _ => false
  end.

Definition call_data (c : Call) : bytes :=
  match c with
  | AdsSyncWriteControlReq _ _ _ _ data => data
  | AdsSyncWriteReq _ _ _ _ data => data
  | AdsSyncReadWriteReq _ _ _ _ _ data => data
  | _ => []
  end.

(** The handles of the release requests among [calls], in order. *)
Definition released (calls : list Call) : list Z :=
  map (fun c => le_unsigned (call_data c)) (filter (fun c => is_release c = true) calls).

(** The request [adsSyncWriteReq(adr, ADSIGRP_SYM_RELEASEHND, 0, h,
    PLCTYPE_UDINT)] makes. *)
Definition release_call (adr : AmsAddr) (h : Z) : Call :=
  AdsSyncWriteReq adr (wrap_unsigned 32 (ADSIGRP_SYM_RELEASEHND env)) 0 4 (le_bytes 4 h).

(** The status code of the call [c] made in the state [w], as the module
    sees it. *)
Definition status (w : World) (c : Call) : Z :=
  restype_c_int (ret (_adsDLL env (trace w) c)).

(** The status code of the registration of a notification, whose [restype]
    the module sets to [c_ulong]. *)
Definition status_ulong (w : World) (c : Call) : Z :=
  restype_c_ulong (ret (_adsDLL env (trace w) c)).

(** The request that resolves [name], whose encoding is [ascii_string], to a
    handle: [adsSyncReadWriteReq(adr, ADSIGRP_SYM_HNDBYNAME, 0x0,
    PLCTYPE_UDINT, name, PLCTYPE_STRING)]. *)
Definition resolve_call (adr : AmsAddr) (name : str) (ascii_string : bytes) : Call :=
  AdsSyncReadWriteReq adr (wrap_unsigned 32 (ADSIGRP_SYM_HNDBYNAME env)) 0 4
    (Z.of_nat (length name + 1)) (take (length name + 1) (ascii_string ++ [x00])).

(** The resolution of a name to a handle, as the three functions that take
    a name do it. *)
Definition resolve (adr : AmsAddr) (name : str) : M pyval :=
  adsSyncReadWriteReq adr (ADSIGRP_SYM_HNDBYNAME env) 0x0 PLCTYPE_UDINT
    (VStr name) PLCTYPE_STRING.

(** The two groups of the access by handle differ as C arguments. *)
Definition distinct_groups : Prop :=
  wrap_unsigned 32 (ADSIGRP_SYM_VALBYHND env)
  <> wrap_unsigned 32 (ADSIGRP_SYM_RELEASEHND env).

(** What a call of the DLL wrote to a buffer of [n] bytes. *)
Definition received (n : nat) (w : World) (c : Call) : bytes :=
  fill n (out (_adsDLL env (trace w) c)).

End Pyads.

(** The outcomes of a call of a function. *)
Definition returns {A} (r : Result A) : Prop := exists a, r = Ok a.

Definition raises_ADSError {A} (r : Result A) : Prop :=
  exists err_code msg, r = Raise (ADSError err_code msg).

(** The built-in exceptions that building the C arguments of a call can
    raise. *)
Definition building_error (x : exn) : Prop :=
  x = TypeError \/ x = IndexError \/ x = AttributeError \/ x = UnicodeEncodeError.

(** The callback registered under a notification handle, if any. *)
Definition registered (w : World) (notification_handle : Z) : option Callback :=
  match callback_store w !! notification_handle with
  | Some (Some c_callback) => Some c_callback
  | _ => None
  end.

(** What the specification words as the encoding of a [FixedString] of a
    given capacity: at most [capacity - 1] bytes of the text and a null
    terminator. *)
Definition FixedString_encode (capacity : nat) (text : bytes) : bytes :=
  take (capacity - 1) text ++ [x00].

(** ** A device to run the functions against *)

(** A sample of the error table. *)
Definition sample_ERROR_CODES : gmap Z str :=
  <[6 := lit "target port not found"]>
  (<[1808 := lit "symbol not found"]>
  (<[1809 := lit "symbol version invalid"]> ∅)).

(** A device that answers the [failing]-th call (counted from zero) with
    the status [code] and every other call with success; it resolves every
    name to the handle [h], hands out the notification handle [n] and reads
    [content] from every variable. *)
Definition device (h n : Z) (content : bytes) (failing : nat) (code : Z)
    (history : list Call) (c : Call) : Response :=
  {| ret := if Nat.eqb (length history) failing then code else 0;
     out := match c with
            | AdsSyncReadWriteReq _ _ _ _ _ _ => le_bytes 4 h
            | AdsSyncAddDeviceNotificationReq _ _ _ _ _ _ => le_bytes 4 n
            | AdsSyncReadReq _ _ _ _ => content
            | _ => []
            end;
     out2 := [] |}.

Definition sample_env (windows : bool) (dll : list Call -> Call -> Response) : Env :=
  {| platform_is_windows := windows;
     ERROR_CODES := sample_ERROR_CODES;
     ADSIGRP_SYM_HNDBYNAME := 0xF003;
     ADSIGRP_SYM_VALBYHND := 0xF005;
     ADSIGRP_SYM_RELEASEHND := 0xF006;
     STRING_BUFFER := 1024;
     _adsDLL := dll |}.

Definition plc : AmsAddr :=
  {| net_id := [x05; x21; x5b; x12; x01; x01]; port := 851 |}.

Definition start : World := {| trace := []; callback_store := ∅ |}.

(** The state of a client whose callback [5] is registered under the
    notification handle [77]. *)
Definition subscribed : World :=
  {| trace := []; callback_store := {[ 77 := Some 5%nat ]} |}.

(** A device that answers every call with success, and the same module where
    the DLL is not available. *)
Definition working : Env := sample_env true (device 1001 77 [x01] 0 0).
Definition elsewhere : Env := sample_env false (device 1001 77 [x01] 0 0).

(** Devices that answer the first, respectively the second, call with the
    status 6. *)
Definition failing_first : Env := sample_env true (device 1001 77 [x01] 0 6).
Definition failing_second : Env := sample_env true (device 1001 77 [x01] 1 6).

(** A device whose variables read as the bytes of [Device1], a null byte and
    more bytes, and one whose variables read as a byte that is no UTF-8. *)
Definition device1 : Env :=
  sample_env true
    (device 1001 77
       (list_byte_of_string "Device1" ++ [x00] ++ list_byte_of_string "garbage") 0 0).
Definition not_text : Env := sample_env true (device 1001 77 [xff; x00] 0 0).

(** [sub] occurs in [s]. *)
Definition contains (s sub : str) : Prop :=
  exists pre post, s = pre ++ sub ++ post.

(** ** Observations for every function *)

(** The functions that check a status, the four of the request layer
    apart. *)
Definition status_checked (i : Invocation) : bool :=
  match i with
  | CallPortClose | CallGetLocalAddress | CallReadStateReq _
  | CallReadDeviceInfoReq _ | CallSetTimeout _ => true
  | _ => false
  end.

(** The two functions that manage notifications. *)
Definition notification (i : Invocation) : bool :=
  match i with
  | CallAddDeviceNotificationReq _ _ _ _ _ | CallDelDeviceNotificationReq _ _ _ => true
  | _ => false
  end.

(** The number of calls of the DLL a function has in its text, the
    functions it calls included. *)
Definition max_calls (i : Invocation) : nat :=
  match i with
  | CallReadByName _ _ _ | CallWriteByName _ _ _ _ => 3
  | CallAddDeviceNotificationReq _ _ _ _ _ | CallDelDeviceNotificationReq _ _ _ => 2
  | _ => 1
  end.

(** A computation relates every state to the state it leaves by [R]. *)
Definition keeps {A} (R : World -> World -> Prop) (m : M A) : Prop :=
  forall w, R w (snd (m w)).

(** [callback_store] is the same. *)
Definition same_store (w w' : World) : Prop :=
  callback_store w' = callback_store w.

(** Every key of [callback_store] is still one. *)
Definition store_grows (w w' : World) : Prop :=
  dom (callback_store w) ⊆ dom (callback_store w').

(** The log of [w'] is that of [w] and at most [n] calls more. *)
Definition appends (n : nat) (w w' : World) : Prop :=
  exists new, trace w' = trace w ++ new /\ (length new <= n)%nat.

(** The values a ctypes integer of the given sign and width holds. *)
Definition fits (signed : bool) (w : width) (z : Z) : Prop :=
  if signed then
    - 2 ^ (8 * Z.of_nat (width_bytes w) - 1) <= z < 2 ^ (8 * Z.of_nat (width_bytes w) - 1)
  else 0 <= z < 2 ^ (8 * Z.of_nat (width_bytes w)).

(** What a function returned has the shape of its type: the items of an
    array, an integer the type holds, a truth value, a text of at most
    [capacity] characters. *)
Definition shaped (capacity : nat) (t : ctype) (v : pyval) : Prop :=
  match t with
  | PyCArrayType _ n => exists items, v = VList items /\ length items = n
  | Simple (c_integer signed w) => exists z, v = VInt z /\ fits signed w z
  | Simple c_bool => exists b, v = VBool b
  | Simple c_char => exists s, v = VStr s /\ (length s <= capacity)%nat
  end.

(** A device that answers the third call with the status 6. *)
Definition failing_third : Env := sample_env true (device 1001 77 [x01] 2 6).

(** A device that answers every call with success and reads, from every
    variable, the data of the call before. *)
Definition echo (history : list Call) (c : Call) : Response :=
  {| ret := 0; out := call_data (List.last history AdsPortOpen); out2 := [] |}.

Definition echoing : Env := sample_env true echo.

(** * Properties *)

(** ** Bytes and text *)

Lemma Z_of_byte_of_Z (z : Z) : Z_of_byte (byte_of_Z z) = z mod 256.
Proof.
  unfold Z_of_byte, byte_of_Z.
  assert (Hb : 0 <= z mod 256 < 256) by (apply Z.mod_pos_bound; lia).
  destruct (Byte.of_N (Z.to_N (z mod 256))) as [b|] eqn:E.
  - apply Byte.to_of_N in E. rewrite E. lia.
  - apply Byte.of_N_None_iff in E. lia.
Qed.

Lemma Z_of_byte_range (b : byte) : 0 <= Z_of_byte b < 256.
Proof.
  unfold Z_of_byte. pose proof (Byte.to_N_bounded b). lia.
Qed.

Lemma le_unsigned_le_bytes (n : nat) (z : Z) :
  le_unsigned (le_bytes n z) = z mod 256 ^ Z.of_nat n.
Proof.
  revert z. induction n as [|n IH]; intros z.
  - simpl. now rewrite Z.mod_1_r.
  - cbn [le_bytes le_unsigned]. rewrite Z_of_byte_of_Z, IH.
    rewrite Nat2Z.inj_succ, Z.pow_succ_r by lia.
    rewrite Z.rem_mul_r by lia. reflexivity.
Qed.

Lemma le_unsigned_range (bs : bytes) :
  0 <= le_unsigned bs < 256 ^ Z.of_nat (length bs).
Proof.
  induction bs as [|b bs IH].
  - simpl. lia.
  - cbn [le_unsigned length]. rewrite Nat2Z.inj_succ, Z.pow_succ_r by lia.
    pose proof (Z_of_byte_range b). lia.
Qed.

Lemma length_fill (n : nat) (out : bytes) : length (fill n out) = n.
Proof.
  unfold fill. rewrite length_take, length_app, repeat_length. lia.
Qed.

Lemma until_null_terminated (bs : bytes) :
  take (length (until_null bs) + 1) (bs ++ [x00]) = until_null bs ++ [x00].
Proof.
  induction bs as [|b bs IH].
  - reflexivity.
  - cbn [until_null]. destruct (Byte.eqb b x00) eqn:E.
    + apply Byte.byte_dec_bl in E. subst b. reflexivity.
    + cbn [length Nat.add app take]. f_equal. exact IH.
Qed.

Lemma until_null_no_null (bs : bytes) : x00 ∉ until_null bs.
Proof.
  induction bs as [|b bs IH]; cbn [until_null].
  - apply not_elem_of_nil.
  - destruct (Byte.eqb b x00) eqn:E.
    + apply not_elem_of_nil.
    + intros [E'|H]%elem_of_cons; [|tauto]. subst b. discriminate E.
Qed.

Lemma until_null_all (bs : bytes) : x00 ∉ bs -> until_null bs = bs.
Proof.
  induction bs as [|b bs IH]; intros H; cbn [until_null]; [reflexivity|].
  destruct (Byte.eqb b x00) eqn:E.
  - apply Byte.byte_dec_bl in E. subst b. exfalso. apply H. apply elem_of_cons. now left.
  - f_equal. apply IH. intros Hin. apply H. apply elem_of_cons. now right.
Qed.

(** *** UTF-8: decoding undoes encoding *)

Section Utf8.

Local Open Scope N_scope.

Lemma to_N_byte_of_N (n : N) : n < 256 -> Byte.to_N (byte_of_N n) = n.
Proof.
  intros H. unfold byte_of_N.
  pose proof (Z_of_byte_of_Z (Z.of_N n)) as E. unfold Z_of_byte in E.
  rewrite Z.mod_small in E by lia. lia.
Qed.

Lemma in_range_spec lo hi b :
  in_range lo hi b = true <-> lo <= Byte.to_N b <= hi.
Proof.
  unfold in_range. rewrite andb_true_iff, !N.leb_le. tauto.
Qed.

Lemma in_range_outside lo hi b :
  Byte.to_N b < lo \/ hi < Byte.to_N b -> in_range lo hi b = false.
Proof.
  intros H. unfold in_range. apply andb_false_iff.
  destruct H; [left|right]; now apply N.leb_gt.
Qed.

Ltac range_bool :=
  repeat first [rewrite andb_true_iff | rewrite orb_true_iff | rewrite in_range_spec];
  lia.

Lemma utf8_decode_1 b0 rest :
  Byte.to_N b0 <= 0x7F ->
  utf8_decode (b0 :: rest) = cons (Byte.to_N b0) <$> utf8_decode rest.
Proof.
  intros H. cbn [utf8_decode].
  replace (in_range 0x00 0x7F b0) with true by (symmetry; range_bool).
  reflexivity.
Qed.

Lemma utf8_decode_2 b0 b1 rest :
  0xC2 <= Byte.to_N b0 <= 0xDF -> 0x80 <= Byte.to_N b1 <= 0xBF ->
  utf8_decode (b0 :: b1 :: rest)
  = cons ((Byte.to_N b0 - 0xC0) * 0x40 + cont b1) <$> utf8_decode rest.
Proof.
  intros H0 H1. cbn [utf8_decode].
  rewrite (in_range_outside 0x00 0x7F b0) by lia.
  replace (in_range 0xC2 0xDF b0 && in_range 0x80 0xBF b1) with true
    by (symmetry; range_bool).
  reflexivity.
Qed.

Lemma utf8_decode_3 b0 b1 b2 rest :
  (Byte.to_N b0 = 0xE0 /\ 0xA0 <= Byte.to_N b1 <= 0xBF
   \/ 0xE1 <= Byte.to_N b0 <= 0xEC /\ 0x80 <= Byte.to_N b1 <= 0xBF
   \/ Byte.to_N b0 = 0xED /\ 0x80 <= Byte.to_N b1 <= 0x9F
   \/ 0xEE <= Byte.to_N b0 <= 0xEF /\ 0x80 <= Byte.to_N b1 <= 0xBF) ->
  0x80 <= Byte.to_N b2 <= 0xBF ->
  utf8_decode (b0 :: b1 :: b2 :: rest)
  = cons ((Byte.to_N b0 - 0xE0) * 0x1000 + cont b1 * 0x40 + cont b2)
      <$> utf8_decode rest.
Proof.
  intros H0 H2. cbn [utf8_decode].
  rewrite (in_range_outside 0x00 0x7F b0) by lia.
  rewrite (in_range_outside 0xC2 0xDF b0) by lia. cbn [andb].
  match goal with |- (if ?b then _ else _) = _ =>
    replace b with true by (symmetry; range_bool) end.
  reflexivity.
Qed.

Lemma utf8_decode_4 b0 b1 b2 b3 rest :
  (Byte.to_N b0 = 0xF0 /\ 0x90 <= Byte.to_N b1 <= 0xBF
   \/ 0xF1 <= Byte.to_N b0 <= 0xF3 /\ 0x80 <= Byte.to_N b1 <= 0xBF
   \/ Byte.to_N b0 = 0xF4 /\ 0x80 <= Byte.to_N b1 <= 0x8F) ->
  0x80 <= Byte.to_N b2 <= 0xBF -> 0x80 <= Byte.to_N b3 <= 0xBF ->
  utf8_decode (b0 :: b1 :: b2 :: b3 :: rest)
  = cons ((Byte.to_N b0 - 0xF0) * 0x40000 + cont b1 * 0x1000 + cont b2 * 0x40
          + cont b3) <$> utf8_decode rest.
Proof.
  intros H0 H2 H3. cbn [utf8_decode].
  rewrite (in_range_outside 0x00 0x7F b0) by lia.
  rewrite (in_range_outside 0xC2 0xDF b0) by lia. cbn [andb].
  rewrite (in_range_outside 0xE0 0xE0 b0), (in_range_outside 0xE1 0xEC b0),
    (in_range_outside 0xED 0xED b0), (in_range_outside 0xEE 0xEF b0) by lia.
  cbn [andb orb].
  match goal with |- (if ?b then _ else _) = _ =>
    replace b with true by (symmetry; range_bool) end.
  reflexivity.
Qed.

Lemma utf8_decode_encode_cp (c : N) (bs rest : list byte) :
  utf8_encode_cp c = Some bs ->
  utf8_decode (bs ++ rest) = cons c <$> utf8_decode rest.
Proof.
  unfold utf8_encode_cp.
  assert (D2 : c / 0x1000 = c / 0x40 / 0x40) by (now rewrite N.Div0.div_div).
  assert (D3 : c / 0x40000 = c / 0x1000 / 0x40) by (now rewrite N.Div0.div_div).
  pose proof (N.div_mod c 0x40 ltac:(lia)) as E1.
  pose proof (N.mod_lt c 0x40 ltac:(lia)) as L1.
  pose proof (N.div_mod (c / 0x40) 0x40 ltac:(lia)) as E2.
  pose proof (N.mod_lt (c / 0x40) 0x40 ltac:(lia)) as L2.
  pose proof (N.div_mod (c / 0x1000) 0x40 ltac:(lia)) as E3.
  pose proof (N.mod_lt (c / 0x1000) 0x40 ltac:(lia)) as L3.
  rewrite <- D2 in E2. rewrite <- D3 in E3. clear D2 D3.
  remember (c mod 0x40) as r0 eqn:R0.
  remember ((c / 0x40) mod 0x40) as r1 eqn:R1.
  remember ((c / 0x1000) mod 0x40) as r2 eqn:R2.
  remember (c / 0x40) as q0 eqn:Q0.
  remember (c / 0x1000) as q1 eqn:Q1.
  remember (c / 0x40000) as q2 eqn:Q2.
  clear R0 R1 R2 Q0 Q1 Q2.
  destruct (N.ltb_spec c 0x80).
  { intros [= <-]. cbn [app]. rewrite utf8_decode_1; rewrite !to_N_byte_of_N by lia.
    - reflexivity.
    - lia. }
  destruct (N.ltb_spec c 0x800).
  { intros [= <-]. cbn [app].
    rewrite utf8_decode_2; unfold cont; rewrite ?to_N_byte_of_N by lia; try lia.
    f_equal. f_equal. lia. }
  destruct (N.ltb_spec c 0x10000).
  { destruct (N.leb_spec 0xD800 c); destruct (N.leb_spec c 0xDFFF); cbn [andb];
      try discriminate.
    all: intros [= <-]; cbn [app];
      rewrite utf8_decode_3; unfold cont; rewrite ?to_N_byte_of_N by lia; try lia;
      f_equal; f_equal; lia. }
  destruct (N.ltb_spec c 0x110000); [|discriminate].
  intros [= <-]; cbn [app].
  rewrite utf8_decode_4; unfold cont; rewrite ?to_N_byte_of_N by lia; try lia.
  f_equal; f_equal; lia.
Qed.

Lemma utf8_decode_encode (s : list N) (bs : list byte) :
  utf8_encode s = Some bs -> utf8_decode bs = Some s.
Proof.
  revert bs. induction s as [|c s IH]; intros bs; cbn [utf8_encode].
  - now intros [= <-].
  - destruct (utf8_encode_cp c) as [b|] eqn:Ec; [|discriminate].
    destruct (utf8_encode s) as [bs'|]; [|discriminate].
    intros [= <-]. rewrite (utf8_decode_encode_cp _ _ _ Ec), (IH bs' eq_refl).
    reflexivity.
Qed.

End Utf8.

Lemma contains_prefix (a b : str) : contains (a ++ b) a.
Proof. exists [], b. reflexivity. Qed.

Lemma contains_middle (a b c d : str) : contains (a ++ b ++ c ++ d) c.
Proof. exists (a ++ b), d. now rewrite <- !app_assoc. Qed.

Arguments wrap_unsigned : simpl never.
Arguments wrap_signed : simpl never.
Arguments restype_c_int : simpl never.
Arguments restype_c_ulong : simpl never.
Arguments fill : simpl never.
Arguments le_bytes : simpl never.
Arguments le_unsigned : simpl never.
Arguments lit : simpl never.
Arguments str_of_int : simpl never.

Section PyadsProperties.

Context (env : Env).

(** ** The platform gate *)

Lemma win32_only_windows {A} (name : string) (fn : M A) (w : World) :
  platform_is_windows env = true -> win32_only env name fn w = fn w.
Proof. intros H. unfold win32_only. now rewrite H. Qed.

Lemma win32_only_elsewhere {A} (name : string) (fn : M A) (w : World) :
  platform_is_windows env = false ->
  win32_only env name fn w =
  (Raise (RuntimeError
            (lit name ++ lit " is only supported when using the TcAdsDll (win32).")), w).
Proof. intros H. unfold win32_only. now rewrite H. Qed.

(** C7. Where the DLL is unavailable ([platform_is_windows()] is false),
    every public function, whatever its arguments, raises the [RuntimeError]
    that names it, and the state is the one before the call: no call of the
    DLL is made and [callback_store] is untouched. *)
Theorem unsupported_platform (i : Invocation) (w : World) :
  platform_is_windows env = false ->
  invoke env i w =
  (Raise (RuntimeError
            (lit (fn_name i) ++ lit " is only supported when using the TcAdsDll (win32).")),
   w).
Proof.
  intros H.
  destruct i; cbn [invoke fn_name]; unfold map_M, bind_M.
  all: first
    [ progress unfold adsGetDllVersion | progress unfold adsPortOpen
    | progress unfold adsPortClose | progress unfold adsGetLocalAddress
    | progress unfold adsSyncReadStateReq | progress unfold adsSyncReadDeviceInfoReq
    | progress unfold adsSyncWriteControlReq | progress unfold adsSyncWriteReq
    | progress unfold adsSyncReadWriteReq | progress unfold adsSyncReadReq
    | progress unfold adsSyncReadByName | progress unfold adsSyncWriteByName
    | progress unfold adsSyncAddDeviceNotificationReq
    | progress unfold adsSyncDelDeviceNotificationReq
    | progress unfold adsSyncSetTimeout ].
  all: now rewrite win32_only_elsewhere.
Qed.

(** ** The error class *)

(** C6. For every code the constructor of [ADSError] returns an error
    that carries the code and a message containing the code in decimal: the
    description of the table followed by the code in brackets when the table
    has the code, and the text of an unknown error followed by the code in
    brackets when it has not. *)
Theorem ADSError_init_message (err_code : Z) :
  exists msg,
    ADSError_init env err_code = ADSError err_code msg
    /\ contains msg (str_of_int err_code)
    /\ (forall description, ERROR_CODES env !! err_code = Some description ->
          msg = description ++ lit " (" ++ str_of_int err_code ++ lit ")"
          /\ contains msg description)
    /\ (ERROR_CODES env !! err_code = None ->
          msg = lit "Unknown Error (" ++ str_of_int err_code ++ lit ")"
          /\ contains msg (lit "Unknown Error")).
Proof.
  unfold ADSError_init.
  destruct (ERROR_CODES env !! err_code) as [d|] eqn:E.
  - eexists. split; [reflexivity|]. split; [|split].
    + exists (d ++ lit " ("), (lit ")"). now rewrite <- !app_assoc.
    + intros d' [= <-]. split; [reflexivity|]. apply contains_prefix.
    + discriminate.
  - eexists. split; [reflexivity|]. split; [|split].
    + exists (lit "Unknown Error ("), (lit ")"). reflexivity.
    + discriminate.
    + intros _. split; [reflexivity|].
      exists [], (lit " (" ++ str_of_int err_code ++ lit ")"). reflexivity.
Qed.

(** ** The request layer *)

Hypothesis windows : platform_is_windows env = true.

Ltac on_windows :=
  rewrite win32_only_windows by exact windows;
  unfold bind_M, call_dll, check_errCode, callback_store_set, pure, ret_M, raise,
    status, received.

Lemma adsSyncWriteReq_run adr indexGroup indexOffset value plcDataType w :
  adsSyncWriteReq env adr indexGroup indexOffset value plcDataType w =
  match write_data value plcDataType with
  | Raise x => (Raise x, w)
  | Ok (nLength, pData) =>
      let c := AdsSyncWriteReq adr (wrap_unsigned 32 indexGroup)
                 (wrap_unsigned 32 indexOffset) nLength pData in
      (if status env w c =? 0 then Ok tt
       else Raise (ADSError_init env (status env w c)), log w c)
  end.
Proof.
  unfold adsSyncWriteReq. on_windows.
  destruct (write_data value plcDataType) as [[n d]|x]; [|reflexivity].
  cbv zeta. destruct (_ =? 0); reflexivity.
Qed.

Lemma adsSyncWriteControlReq_run adr adsState deviceState data plcDataType w :
  adsSyncWriteControlReq env adr adsState deviceState data plcDataType w =
  match control_data data plcDataType with
  | Raise x => (Raise x, w)
  | Ok (nLength, pData) =>
      let c := AdsSyncWriteControlReq adr (wrap_unsigned 32 adsState)
                 (wrap_unsigned 32 deviceState) nLength pData in
      (if status env w c =? 0 then Ok tt
       else Raise (ADSError_init env (status env w c)), log w c)
  end.
Proof.
  unfold adsSyncWriteControlReq. on_windows.
  destruct (control_data data plcDataType) as [[n d]|x]; [|reflexivity].
  cbv zeta. destruct (_ =? 0); reflexivity.
Qed.

Lemma adsSyncReadWriteReq_run adr indexGroup indexOffset plcReadDataType value
    plcWriteDataType w :
  adsSyncReadWriteReq env adr indexGroup indexOffset plcReadDataType value
    plcWriteDataType w =
  match readwrite_data value plcWriteDataType with
  | Raise x => (Raise x, w)
  | Ok (data_length, data) =>
      let c := AdsSyncReadWriteReq adr (wrap_unsigned 32 indexGroup)
                 (wrap_unsigned 32 indexOffset)
                 (wrap_unsigned 32 (Z.of_nat (sizeof plcReadDataType)))
                 data_length data in
      let readData := received env (sizeof plcReadDataType) w c in
      (if status env w c =? 0 then
         if ctype_eqb plcReadDataType PLCTYPE_STRING then
           match decode readData with
           | Ok s => Ok (VStr s)
           | Raise x => Raise x
           end
         else Ok (read_result plcReadDataType readData)
       else Raise (ADSError_init env (status env w c)), log w c)
  end.
Proof.
  unfold adsSyncReadWriteReq. on_windows.
  destruct (readwrite_data value plcWriteDataType) as [[n d]|x]; [|reflexivity].
  cbv zeta. destruct (_ =? 0); [|reflexivity]. cbn [negb].
  destruct (ctype_eqb plcReadDataType PLCTYPE_STRING); [|reflexivity].
  destruct (decode _); reflexivity.
Qed.

Lemma adsSyncReadReq_run adr indexGroup indexOffset plcDataType w :
  adsSyncReadReq env adr indexGroup indexOffset plcDataType w =
  let c := AdsSyncReadReq adr (wrap_unsigned 32 indexGroup)
             (wrap_unsigned 32 indexOffset)
             (wrap_unsigned 32 (Z.of_nat (read_size env plcDataType))) in
  let data := received env (read_size env plcDataType) w c in
  (if status env w c =? 0 then
     if ctype_eqb plcDataType PLCTYPE_STRING then
       match decode (until_null data) with
       | Ok s => Ok (VStr s)
       | Raise x => Raise x
       end
     else Ok (read_result plcDataType data)
   else Raise (ADSError_init env (status env w c)), log w c).
Proof.
  unfold adsSyncReadReq. on_windows.
  cbv zeta. destruct (_ =? 0); [|reflexivity]. cbn [negb].
  destruct (ctype_eqb plcDataType PLCTYPE_STRING); [|reflexivity].
  destruct (decode _); reflexivity.
Qed.

Lemma scalar_set_raises s v x : scalar_set s v = Raise x -> x = TypeError.
Proof.
  destruct s, v; cbn; try congruence.
  - destruct (_ && _); congruence.
  - destruct bs as [|b [|b' bs]]; congruence.
Qed.

Lemma array_init_raises e n args x :
  array_init e n args = Raise x -> x = TypeError \/ x = IndexError.
Proof.
  revert n. induction args as [|v args IH]; intros n; cbn [array_init];
    [discriminate|].
  destruct n as [|n]; [intros [= <-]; now right|].
  destruct (scalar_set e v) eqn:E.
  - destruct (array_init e n args) eqn:E'; [discriminate|].
    intros [= ->]. now apply (IH n).
  - intros [= ->]. left. eapply scalar_set_raises, E.
Qed.

Lemma c_new_raises t args x : c_new t args = Raise x -> building_error x.
Proof.
  unfold building_error. destruct t as [s|e n]; cbn [c_new].
  - destruct args as [|v [|v' args]]; try congruence.
    + intros H%scalar_set_raises. tauto.
    + intros [= <-]. tauto.
  - destruct (array_init e n args) eqn:E; [discriminate|].
    intros [= <-]. apply array_init_raises in E. tauto.
Qed.

Lemma sized_raises t r x : sized t r = Raise x -> r = Raise x.
Proof. destruct r; cbn; congruence. Qed.

Lemma c_char_p_payload_raises v x : c_char_p_payload v = Raise x -> building_error x.
Proof.
  unfold building_error, c_char_p_payload, encode.
  destruct v; try (intros [= <-]; tauto).
  destruct (utf8_encode s); [discriminate|]. intros [= <-]. tauto.
Qed.

Lemma write_data_raises v t x : write_data v t = Raise x -> building_error x.
Proof.
  unfold write_data. destruct (ctype_eqb t PLCTYPE_STRING).
  - apply c_char_p_payload_raises.
  - intros H%sized_raises. destruct (is_PyCArrayType t).
    + destruct (star v) as [args|y] eqn:E.
      * eapply c_new_raises, H.
      * injection H as ->. destruct v; cbn in E; try discriminate;
          injection E as <-; unfold building_error; tauto.
    + eapply c_new_raises, H.
Qed.

Lemma control_data_raises v t x : control_data v t = Raise x -> building_error x.
Proof.
  unfold control_data. destruct (ctype_eqb t PLCTYPE_STRING).
  - apply c_char_p_payload_raises.
  - intros H%sized_raises. eapply c_new_raises, H.
Qed.

Lemma readwrite_data_raises v t x : readwrite_data v t = Raise x -> building_error x.
Proof.
  unfold readwrite_data. destruct (ctype_eqb t PLCTYPE_STRING).
  - unfold building_error, encode. destruct v; try (intros [= <-]; tauto).
    destruct (utf8_encode s); [discriminate|]. intros [= <-]. tauto.
  - intros H%sized_raises. eapply c_new_raises, H.
Qed.

Lemma ADSError_init_code err_code :
  exists msg, ADSError_init env err_code = ADSError err_code msg.
Proof. unfold ADSError_init. eauto. Qed.

(** The outcome of a request that reached the DLL, from its status: [ok]
    is what the function does after a status of zero. *)
Lemma status_outcome {A} (st : Z) (ok : Result A) :
  ~ raises_ADSError ok ->
  let r := if st =? 0 then ok else Raise (ADSError_init env st) in
  (st <> 0 <-> r = Raise (ADSError_init env st))
  /\ (forall err_code msg, r = Raise (ADSError err_code msg) -> err_code = st)
  /\ (returns r -> st = 0).
Proof.
  intros Hok r. subst r. destruct (Z.eqb_spec st 0) as [->|Hne].
  - split; [|split].
    + split; [congruence|]. intros ->. exfalso. apply Hok.
      destruct (ADSError_init_code 0) as [m ->]. now exists 0, m.
    + intros c m ->. exfalso. apply Hok. now exists c, m.
    + reflexivity.
  - split; [|split].
    + tauto.
    + intros c m. destruct (ADSError_init_code st) as [m' ->]. congruence.
    + intros [a Ha]. discriminate.
Qed.

Lemma decoded_no_ADSError bs :
  ~ raises_ADSError (match decode bs with Ok s => Ok (RValue (VStr s)) | Raise x => Raise x end).
Proof.
  unfold decode. destruct (utf8_decode bs); intros (c & m & [=]).
Qed.

Lemma c_arguments_raises i x : c_arguments env i = Raise x -> building_error x.
Proof.
  destruct i; cbn [c_arguments]; try (intros [= <-]; unfold building_error; tauto).
  - destruct (control_data data plcDataType) as [[n d]|y] eqn:E; [discriminate|].
    intros [= <-]. eapply control_data_raises, E.
  - destruct (write_data value plcDataType) as [[n d]|y] eqn:E; [discriminate|].
    intros [= <-]. eapply write_data_raises, E.
  - destruct (readwrite_data value plcWriteDataType) as [[n d]|y] eqn:E;
      [discriminate|].
    intros [= <-]. eapply readwrite_data_raises, E.
Qed.

(** C5. On Windows, a function of the request layer first builds the C
    arguments of its call.  When building them raises, that built-in
    exception propagates and the DLL is not called.  Otherwise the function
    makes exactly that call of the DLL, and then: it raises the [ADSError] of
    the status code exactly when the code is not zero, no [ADSError] with
    another code is ever raised, and it returns only when the code is zero. *)
Theorem request_layer_status (i : Invocation) (w : World) :
  request_layer i = true ->
  let r := fst (invoke env i w) in
  let w' := snd (invoke env i w) in
  match c_arguments env i with
  | Raise x => r = Raise x /\ w' = w /\ building_error x
  | Ok c =>
      w' = log w c
      /\ (status env w c <> 0 <-> r = Raise (ADSError_init env (status env w c)))
      /\ (forall err_code msg,
            r = Raise (ADSError err_code msg) -> err_code = status env w c)
      /\ (returns r -> status env w c = 0)
  end.
Proof.
  intros Hreq. cbv zeta.
  pose proof (c_arguments_raises i) as Hbuild.
  destruct i; try discriminate Hreq; cbn [invoke c_arguments] in *;
    unfold map_M, bind_M, ret_M.
  - rewrite adsSyncWriteControlReq_run.
    destruct (control_data data plcDataType) as [[n d]|x] eqn:E.
    + cbv zeta. cbn [fst snd]. split; [destruct (_ =? 0); reflexivity|].
      match goal with |- context [status env w ?c] =>
        pose proof (status_outcome (status env w c) (Ok RNone)) as Hs;
        destruct (status env w c =? 0) end;
        apply Hs; intros (c & m & [=]).
    + cbn [fst snd]. split; [reflexivity|]. split; [reflexivity|].
      now apply Hbuild.
  - rewrite adsSyncWriteReq_run.
    destruct (write_data value plcDataType) as [[n d]|x] eqn:E.
    + cbv zeta. cbn [fst snd]. split; [destruct (_ =? 0); reflexivity|].
      match goal with |- context [status env w ?c] =>
        pose proof (status_outcome (status env w c) (Ok RNone)) as Hs;
        destruct (status env w c =? 0) end;
        apply Hs; intros (c & m & [=]).
    + cbn [fst snd]. split; [reflexivity|]. split; [reflexivity|].
      now apply Hbuild.
  - rewrite adsSyncReadWriteReq_run.
    destruct (readwrite_data value plcWriteDataType) as [[n d]|x] eqn:E.
    + cbv zeta. cbn [fst snd].
      split; [destruct (_ =? 0); [destruct (ctype_eqb _ _); [destruct (decode _)|]|];
              reflexivity|].
      match goal with |- context [status env w ?c] =>
        destruct (ctype_eqb plcReadDataType PLCTYPE_STRING);
        [ pose proof (status_outcome (status env w c) _
                        (decoded_no_ADSError
                           (received env (sizeof plcReadDataType) w c))) as Hs
        | pose proof (status_outcome (status env w c)
                        (Ok (RValue (read_result plcReadDataType
                                       (received env (sizeof plcReadDataType) w c))))) as Hs ];
        cbv zeta in Hs; destruct (status env w c =? 0) end.
      all: try destruct (decode _); cbn [fst snd] in *; try apply Hs;
        try (intros (c & m & [=])).
    + cbn [fst snd]. split; [reflexivity|]. split; [reflexivity|].
      now apply Hbuild.
  - rewrite adsSyncReadReq_run.
    cbv zeta. cbn [fst snd].
    split; [destruct (_ =? 0); [destruct (ctype_eqb _ _); [destruct (decode _)|]|];
            reflexivity|].
    match goal with |- context [status env w ?c] =>
      destruct (ctype_eqb plcDataType PLCTYPE_STRING);
      [ pose proof (status_outcome (status env w c) _
                      (decoded_no_ADSError
                         (until_null (received env (read_size env plcDataType) w c)))) as Hs
      | pose proof (status_outcome (status env w c)
                      (Ok (RValue (read_result plcDataType
                                     (received env (read_size env plcDataType) w c))))) as Hs ];
      cbv zeta in Hs; destruct (status env w c =? 0) end.
    all: try destruct (decode _); cbn [fst snd] in *; try apply Hs;
      try (intros (c & m & [=])).
Qed.

(** ** Access by name *)

Lemma trace_log w c : trace (log w c) = trace w ++ [c].
Proof. reflexivity. Qed.

Lemma callback_store_log w c : callback_store (log w c) = callback_store w.
Proof. reflexivity. Qed.

Lemma wrap_unsigned_small z : 0 <= z < 2 ^ 32 -> wrap_unsigned 32 z = z.
Proof. intros H. unfold wrap_unsigned. now apply Z.mod_small. Qed.

Lemma received_handle_range w c : 0 <= le_unsigned (received env 4 w c) < 2 ^ 32.
Proof.
  pose proof (le_unsigned_range (received env 4 w c)) as H.
  unfold received in *. rewrite length_fill in H. exact H.
Qed.

Lemma released_nil : released env [] = [].
Proof. reflexivity. Qed.

Lemma released_app l1 l2 : released env (l1 ++ l2) = released env l1 ++ released env l2.
Proof. unfold released. now rewrite filter_app, map_app. Qed.

Lemma released_other c : is_release env c = false -> released env [c] = [].
Proof.
  intros H. unfold released. rewrite filter_cons, filter_nil.
  rewrite decide_False; [reflexivity|]. rewrite H. discriminate.
Qed.

Lemma released_release_call adr h :
  0 <= h < 2 ^ 32 -> released env [release_call env adr h] = [h].
Proof.
  intros H. unfold released. rewrite filter_cons, filter_nil.
  rewrite decide_True.
  - cbn [map release_call call_data]. rewrite le_unsigned_le_bytes.
    f_equal. apply Z.mod_small. exact H.
  - cbn [is_release release_call]. now rewrite !Z.eqb_refl.
Qed.

(** The release of a handle is the fixed request [release_call]. *)
Lemma release_run adr h w :
  adsSyncWriteReq env adr (ADSIGRP_SYM_RELEASEHND env) 0 (VInt h) PLCTYPE_UDINT w =
  (if status env w (release_call env adr h) =? 0 then Ok tt
   else Raise (ADSError_init env (status env w (release_call env adr h))),
   log w (release_call env adr h)).
Proof. rewrite adsSyncWriteReq_run. reflexivity. Qed.

Lemma resolve_run adr name w :
  resolve env adr name w =
  match encode name with
  | Raise x => (Raise x, w)
  | Ok ascii_string =>
      let c := resolve_call env adr name ascii_string in
      (if status env w c =? 0 then Ok (VInt (le_unsigned (received env 4 w c)))
       else Raise (ADSError_init env (status env w c)), log w c)
  end.
Proof.
  unfold resolve. rewrite adsSyncReadWriteReq_run. unfold readwrite_data.
  cbn [ctype_eqb PLCTYPE_STRING scalar_eqb].
  destruct (encode name); reflexivity.
Qed.

(** A resolution that returns has made one request, which is no release,
    and returns an [int] of 32 bits. *)
Lemma resolve_returns adr name w hnl w1 :
  resolve env adr name w = (Ok hnl, w1) ->
  exists h c, hnl = VInt h /\ 0 <= h < 2 ^ 32 /\ w1 = log w c
              /\ is_release env c = false.
Proof.
  rewrite resolve_run. destruct (encode name) as [enc|]; [|discriminate].
  cbv zeta. destruct (_ =? 0); [|discriminate]. intros [= <- <-].
  eexists _, _. split; [reflexivity|]. split; [apply received_handle_range|].
  split; reflexivity.
Qed.

Lemma adsSyncReadReq_logs adr indexGroup indexOffset plcDataType w r w2 :
  adsSyncReadReq env adr indexGroup indexOffset plcDataType w = (r, w2) ->
  exists c, w2 = log w c /\ is_release env c = false.
Proof.
  rewrite adsSyncReadReq_run. cbv zeta. intros [= _ <-]. eauto.
Qed.

Lemma adsSyncWriteReq_by_handle_logs adr h value plcDataType w r w2 :
  distinct_groups env ->
  adsSyncWriteReq env adr (ADSIGRP_SYM_VALBYHND env) h value plcDataType w = (r, w2) ->
  w2 = w \/ exists c, w2 = log w c /\ is_release env c = false.
Proof.
  intros Hd. rewrite adsSyncWriteReq_run.
  destruct (write_data value plcDataType) as [[n d]|x].
  - cbv zeta. intros [= _ <-]. right. eexists. split; [reflexivity|].
    cbn [is_release]. apply andb_false_iff. left. now apply Z.eqb_neq.
  - intros [= _ <-]. now left.
Qed.

(** C1, as the code has it. After the name is resolved to the handle [h],
    [adsSyncReadByName] and [adsSyncWriteByName] run the read, respectively
    the write, through the handle.  When that step raises, its exception
    propagates from the state the step left: no request to release the handle
    is among the calls made.  When the step returns, the release request for
    [h] is the next and last call, and the only release request made. *)
Theorem by_name_release adr dataName value plcDataType w h w1 rd w_rd wr w_wr :
  distinct_groups env ->
  resolve env adr dataName w = (Ok (VInt h), w1) ->
  adsSyncReadReq env adr (ADSIGRP_SYM_VALBYHND env) h plcDataType w1 = (rd, w_rd) ->
  adsSyncWriteReq env adr (ADSIGRP_SYM_VALBYHND env) h value plcDataType w1 = (wr, w_wr) ->
  (exists r w3 new,
      adsSyncReadByName env adr dataName plcDataType w = (r, w3)
      /\ trace w3 = trace w ++ new
      /\ match rd with
         | Raise e => r = Raise e /\ w3 = w_rd /\ released env new = []
         | Ok v => w3 = log w_rd (release_call env adr h) /\ released env new = [h]
         end)
  /\ (exists r w3 new,
        adsSyncWriteByName env adr dataName value plcDataType w = (r, w3)
        /\ trace w3 = trace w ++ new
        /\ match wr with
           | Raise e => r = Raise e /\ w3 = w_wr /\ released env new = []
           | Ok _ => w3 = log w_wr (release_call env adr h) /\ released env new = [h]
           end).
Proof.
  intros Hd Hres Hrd Hwr.
  destruct (resolve_returns _ _ _ _ _ Hres) as (h' & c1 & [= <-] & Hh & -> & Hc1).
  unfold resolve in Hres. split.
  - destruct (adsSyncReadReq_logs _ _ _ _ _ _ _ Hrd) as (c2 & -> & Hc2).
    unfold adsSyncReadByName. on_windows. rewrite Hres. cbn [as_int].
    rewrite Hrd. destruct rd as [v|e].
    + rewrite release_run.
      destruct (_ =? 0); eexists _, _, [c1; c2; release_call env adr h].
      all: split; [reflexivity|].
      all: split; [cbn [trace log]; now rewrite <- !app_assoc|].
      all: split; [reflexivity|].
      all: change [c1; c2; release_call env adr h]
        with ([c1] ++ [c2] ++ [release_call env adr h]).
      all: rewrite !released_app, !released_other, released_release_call by assumption.
      all: reflexivity.
    + eexists _, _, [c1; c2]. split; [reflexivity|].
      split; [cbn [trace log]; now rewrite <- !app_assoc|].
      split; [reflexivity|]. split; [reflexivity|].
      change [c1; c2] with ([c1] ++ [c2]).
      now rewrite released_app, !released_other.
  - unfold adsSyncWriteByName. on_windows. rewrite Hres. cbn [as_int].
    rewrite Hwr.
    destruct (adsSyncWriteReq_by_handle_logs _ _ _ _ _ _ _ Hd Hwr)
      as [->|(c2 & -> & Hc2)]; destruct wr as [v|e].
    + rewrite release_run. eexists _, _, [c1; release_call env adr h].
      split; [reflexivity|].
      split; [cbn [trace log]; now rewrite <- !app_assoc|].
      split; [reflexivity|].
      change [c1; release_call env adr h] with ([c1] ++ [release_call env adr h]).
      rewrite !released_app, !released_other, released_release_call by assumption.
      reflexivity.
    + eexists _, _, [c1]. split; [reflexivity|]. split; [reflexivity|].
      split; [reflexivity|]. split; [reflexivity|]. now apply released_other.
    + rewrite release_run. eexists _, _, [c1; c2; release_call env adr h].
      split; [reflexivity|].
      split; [cbn [trace log]; now rewrite <- !app_assoc|].
      split; [reflexivity|].
      change [c1; c2; release_call env adr h]
        with ([c1] ++ [c2] ++ [release_call env adr h]).
      rewrite !released_app, !released_other, released_release_call by assumption.
      reflexivity.
    + eexists _, _, [c1; c2]. split; [reflexivity|].
      split; [cbn [trace log]; now rewrite <- !app_assoc|].
      split; [reflexivity|]. split; [reflexivity|].
      change [c1; c2] with ([c1] ++ [c2]).
      now rewrite released_app, !released_other.
Qed.

(** ** Notifications *)

Lemma adsSyncDelDeviceNotificationReq_run adr notification_handle user_handle w :
  adsSyncDelDeviceNotificationReq env adr notification_handle user_handle w =
  let c := AdsSyncDelDeviceNotificationReq adr (wrap_unsigned 32 notification_handle) in
  let w1 := store (log w c) notification_handle None in
  if status env w c =? 0 then
    (if status env w1 (release_call env adr user_handle) =? 0 then Ok tt
     else Raise (ADSError_init env (status env w1 (release_call env adr user_handle))),
     log w1 (release_call env adr user_handle))
  else (Raise (ADSError_init env (status env w c)), w1).
Proof.
  unfold adsSyncDelDeviceNotificationReq. on_windows. unfold callback_store_set.
  cbv zeta. destruct (_ =? 0) eqn:E; cbn [negb]; [|reflexivity].
  now rewrite release_run.
Qed.

Lemma adsSyncAddDeviceNotificationReq_run adr data_name pNoteAttrib callback
    user_handle w h w1 :
  resolve env adr data_name w = (Ok (VInt h), w1) ->
  adsSyncAddDeviceNotificationReq env adr data_name pNoteAttrib callback user_handle w =
  let nHUser := match user_handle with
                | Some user_handle => wrap_unsigned 32 user_handle
                | None => h
                end in
  let c := AdsSyncAddDeviceNotificationReq adr
             (wrap_unsigned 32 (ADSIGRP_SYM_VALBYHND env)) h pNoteAttrib callback
             nHUser in
  let pNotification := le_unsigned (received env 4 w1 c) in
  if status_ulong env w1 c =? 0 then
    (Ok (pNotification, VInt h), store (log w1 c) pNotification (Some callback))
  else (Raise (ADSError_init env (status_ulong env w1 c)), log w1 c).
Proof.
  intros Hres.
  destruct (resolve_returns _ _ _ _ _ Hres) as (h' & c1 & [= <-] & Hh & -> & Hc1).
  unfold resolve in Hres.
  unfold adsSyncAddDeviceNotificationReq. on_windows. rewrite Hres. cbn [as_int].
  unfold NOTEFUNC, status_ulong, callback_store_set. rewrite windows.
  rewrite (wrap_unsigned_small h Hh). cbv zeta.
  destruct user_handle; destruct (_ =? 0); reflexivity.
Qed.


(** C4. On Windows, whatever status the deregistration returns,
    [adsSyncDelDeviceNotificationReq] leaves [callback_store] with the slot of
    the notification handle set to [None] and every other slot as it was: no
    callback is registered under the handle any more. *)
Theorem del_notification_unregisters adr notification_handle user_handle w :
  let w' := snd (adsSyncDelDeviceNotificationReq env adr notification_handle
                   user_handle w) in
  callback_store w' = <[notification_handle := None]> (callback_store w)
  /\ registered w' notification_handle = None.
Proof.
  rewrite adsSyncDelDeviceNotificationReq_run. cbv zeta.
  assert (H : forall w', callback_store w'
                         = <[notification_handle := None]> (callback_store w) ->
                         registered w' notification_handle = None).
  { intros w' E. unfold registered. now rewrite E, lookup_insert_eq. }
  destruct (_ =? 0); cbn [snd]; (split; [reflexivity|]); now apply H.
Qed.

(** C3, as the code has it. On Windows, when the deregistration returns a
    status that is not zero, [adsSyncDelDeviceNotificationReq] raises the
    [ADSError] of that status and the deregistration is the only call it has
    made: the handle is not released.  When the status is zero, the release
    request for [user_handle] is the next and last call. *)
Theorem del_notification_release adr notification_handle user_handle w :
  let c := AdsSyncDelDeviceNotificationReq adr (wrap_unsigned 32 notification_handle) in
  let run := adsSyncDelDeviceNotificationReq env adr notification_handle user_handle w in
  if status env w c =? 0 then
    trace (snd run) = trace w ++ [c; release_call env adr user_handle]
    /\ released env [c; release_call env adr user_handle]
       = [wrap_unsigned 32 user_handle]
  else
    fst run = Raise (ADSError_init env (status env w c))
    /\ trace (snd run) = trace w ++ [c]
    /\ released env [c] = [].
Proof.
  rewrite adsSyncDelDeviceNotificationReq_run. cbv zeta.
  destruct (_ =? 0); cbn [fst snd].
  - split; [cbn [trace log store]; now rewrite <- app_assoc|].
    unfold released. rewrite !filter_cons, filter_nil.
    rewrite decide_False by (cbn; discriminate).
    rewrite decide_True by (cbn [is_release release_call]; now rewrite !Z.eqb_refl).
    cbn [map release_call call_data]. now rewrite le_unsigned_le_bytes.
  - split; [reflexivity|]. split; [reflexivity|]. now apply released_other.
Qed.

(** C2, as the code has it. On Windows, when the name is resolved to the
    handle [h] and the registration returns a status that is not zero,
    [adsSyncAddDeviceNotificationReq] raises the [ADSError] of that status
    right after the registration: none of the calls made is a release
    request, so [h] is not released, and [callback_store] is as before. *)
Theorem add_notification_failure adr data_name pNoteAttrib callback user_handle
    w h w1 :
  let c := AdsSyncAddDeviceNotificationReq adr
             (wrap_unsigned 32 (ADSIGRP_SYM_VALBYHND env)) h pNoteAttrib callback
             (match user_handle with
              | Some user_handle => wrap_unsigned 32 user_handle
              | None => h
              end) in
  resolve env adr data_name w = (Ok (VInt h), w1) ->
  status_ulong env w1 c <> 0 ->
  adsSyncAddDeviceNotificationReq env adr data_name pNoteAttrib callback user_handle w
  = (Raise (ADSError_init env (status_ulong env w1 c)), log w1 c)
  /\ (exists new, trace (log w1 c) = trace w ++ new /\ released env new = [])
  /\ callback_store (log w1 c) = callback_store w.
Proof.
  intros c Hres Hst.
  rewrite (adsSyncAddDeviceNotificationReq_run _ _ _ _ _ _ _ _ Hres). cbv zeta.
  fold c. destruct (Z.eqb_spec (status_ulong env w1 c) 0) as [E|_]; [contradiction|].
  destruct (resolve_returns _ _ _ _ _ Hres) as (h' & c1 & [= <-] & Hh & -> & Hc1).
  split; [reflexivity|]. split; [|reflexivity].
  exists ([c1] ++ [c]). split; [cbn [trace log]; now rewrite <- app_assoc|].
  rewrite released_app, !released_other; [reflexivity|reflexivity|assumption].
Qed.


(** ** Strings on the wire *)

(** C8, as the code has it. On Windows, for every text as the value,
    [adsSyncWriteReq] and [adsSyncWriteControlReq] first encode the text.  A
    text that cannot be encoded raises [UnicodeEncodeError] and nothing is
    sent.  For every other text they send the bytes of the encoded text that
    come before its first null byte, all of them whatever their number, and
    one null byte after them, with the number of bytes sent as the length; a
    text without a null byte is sent whole.  No capacity enters and nothing is
    cut; the status of the call decides the outcome. *)
Theorem string_write_payload adr indexGroup indexOffset adsState deviceState s w :
  match utf8_encode s with
  | None =>
      adsSyncWriteReq env adr indexGroup indexOffset (VStr s) PLCTYPE_STRING w
      = (Raise UnicodeEncodeError, w)
      /\ adsSyncWriteControlReq env adr adsState deviceState (VStr s) PLCTYPE_STRING w
         = (Raise UnicodeEncodeError, w)
  | Some ascii_string =>
      let text := until_null ascii_string in
      let nLength := Z.of_nat (length text + 1) in
      let c_write := AdsSyncWriteReq adr (wrap_unsigned 32 indexGroup)
                       (wrap_unsigned 32 indexOffset) nLength (text ++ [x00]) in
      let c_control := AdsSyncWriteControlReq adr (wrap_unsigned 32 adsState)
                         (wrap_unsigned 32 deviceState) nLength (text ++ [x00]) in
      adsSyncWriteReq env adr indexGroup indexOffset (VStr s) PLCTYPE_STRING w
      = (if status env w c_write =? 0 then Ok tt
         else Raise (ADSError_init env (status env w c_write)), log w c_write)
      /\ adsSyncWriteControlReq env adr adsState deviceState (VStr s) PLCTYPE_STRING w
         = (if status env w c_control =? 0 then Ok tt
            else Raise (ADSError_init env (status env w c_control)), log w c_control)
      /\ (x00 ∉ ascii_string -> text = ascii_string)
  end.
Proof.
  rewrite adsSyncWriteReq_run, adsSyncWriteControlReq_run.
  unfold write_data, control_data, c_char_p_payload, encode.
  cbn [ctype_eqb PLCTYPE_STRING scalar_eqb].
  destruct (utf8_encode s) as [ascii_string|]; [|split; reflexivity].
  rewrite until_null_terminated. cbv zeta.
  split; [reflexivity|]. split; [reflexivity|]. apply until_null_all.
Qed.

Lemma read_size_string : read_size env PLCTYPE_STRING = STRING_BUFFER env.
Proof.
  unfold read_size. cbn [ctype_eqb PLCTYPE_STRING scalar_eqb sizeof scalar_size].
  apply Nat.mul_1_r.
Qed.

(** What a read of the string type does with the buffer the DLL filled. *)
Lemma adsSyncReadReq_string adr indexGroup indexOffset w :
  let c := AdsSyncReadReq adr (wrap_unsigned 32 indexGroup)
             (wrap_unsigned 32 indexOffset)
             (wrap_unsigned 32 (Z.of_nat (STRING_BUFFER env))) in
  let data := received env (STRING_BUFFER env) w c in
  status env w c = 0 ->
  adsSyncReadReq env adr indexGroup indexOffset PLCTYPE_STRING w =
  (match utf8_decode (until_null data) with
   | Some s => Ok (VStr s)
   | None => Raise UnicodeDecodeError
   end, log w c).
Proof.
  intros c data Hst. rewrite adsSyncReadReq_run. cbv zeta.
  rewrite read_size_string. fold c. fold data. rewrite Hst.
  cbn [Z.eqb ctype_eqb PLCTYPE_STRING scalar_eqb]. unfold decode.
  destruct (utf8_decode (until_null data)); reflexivity.
Qed.

(** C9, as the code has it. On Windows, when a read of the string type
    gets the status zero and the bytes of the buffer before its first null
    byte (the whole buffer when it has none) are the UTF-8 encoding of a
    text, the read returns that text. *)
Theorem string_read_decodes adr indexGroup indexOffset w s :
  let c := AdsSyncReadReq adr (wrap_unsigned 32 indexGroup)
             (wrap_unsigned 32 indexOffset)
             (wrap_unsigned 32 (Z.of_nat (STRING_BUFFER env))) in
  let data := received env (STRING_BUFFER env) w c in
  status env w c = 0 ->
  utf8_encode s = Some (until_null data) ->
  adsSyncReadReq env adr indexGroup indexOffset PLCTYPE_STRING w
  = (Ok (VStr s), log w c).
Proof.
  intros c data Hst Henc.
  rewrite (adsSyncReadReq_string adr indexGroup indexOffset w Hst).
  fold c. fold data. now rewrite (utf8_decode_encode _ _ Henc).
Qed.

End PyadsProperties.

(** * More properties *)

(** ** Lengths and ranges *)

Lemma length_le_bytes (n : nat) (z : Z) : length (le_bytes n z) = n.
Proof.
  revert z. induction n as [|n IH]; intros z; [reflexivity|].
  change (le_bytes (S n) z) with (byte_of_Z z :: le_bytes n (z / 256)).
  cbn [length]. now rewrite IH.
Qed.

Lemma fill_exact (n : nat) (bs : bytes) : length bs = n -> fill n bs = bs.
Proof.
  intros H. unfold fill. rewrite take_app_le by lia. apply firstn_all2. lia.
Qed.

Lemma pow_256 (n : nat) : 256 ^ Z.of_nat n = 2 ^ (8 * Z.of_nat n).
Proof. rewrite Z.pow_mul_r by lia. reflexivity. Qed.

Lemma wrap_signed_range w z :
  0 < w -> - 2 ^ (w - 1) <= wrap_signed w z < 2 ^ (w - 1).
Proof.
  intros Hw. unfold wrap_signed.
  assert (H2 : 2 ^ w = 2 * 2 ^ (w - 1)).
  { replace w with (Z.succ (w - 1)) at 1 by lia. apply Z.pow_succ_r. lia. }
  assert (Hp : 0 < 2 ^ (w - 1)) by (apply Z.pow_pos_nonneg; lia).
  pose proof (Z.mod_pos_bound z (2 ^ w) ltac:(lia)) as Hm.
  destruct (Z.ltb_spec (z mod 2 ^ w) (2 ^ (w - 1))); lia.
Qed.

Lemma wrap_signed_fits w z :
  0 < w -> - 2 ^ (w - 1) <= z < 2 ^ (w - 1) -> wrap_signed w (z mod 2 ^ w) = z.
Proof.
  intros Hw Hz. unfold wrap_signed.
  assert (H2 : 2 ^ w = 2 * 2 ^ (w - 1)).
  { replace w with (Z.succ (w - 1)) at 1 by lia. apply Z.pow_succ_r. lia. }
  assert (Hp : 0 < 2 ^ (w - 1)) by (apply Z.pow_pos_nonneg; lia).
  rewrite Z.mod_mod by lia.
  destruct (Z_lt_le_dec z 0) as [Hneg|Hpos].
  - assert (E : z mod 2 ^ w = z + 2 ^ w).
    { symmetry. apply (Z.mod_unique_pos _ _ (-1)); lia. }
    rewrite E. destruct (Z.ltb_spec (z + 2 ^ w) (2 ^ (w - 1))); lia.
  - rewrite Z.mod_small by lia.
    destruct (Z.ltb_spec z (2 ^ (w - 1))); lia.
Qed.

Lemma width_bytes_pos (w : width) : (0 < width_bytes w)%nat.
Proof. destruct w; cbn; lia. Qed.

Lemma length_scalar_set s v bs : scalar_set s v = Ok bs -> length bs = scalar_size s.
Proof.
  destruct s; cbn [scalar_set scalar_size].
  - destruct v as [| | | |[|b [|b' l]]|]; try discriminate.
    + intros [= <-]. reflexivity.
    + destruct (_ && _); [|discriminate]. intros [= <-]. reflexivity.
    + intros [= <-]. reflexivity.
  - intros [= <-]. reflexivity.
  - destruct v; try discriminate; intros [= <-]; apply length_le_bytes.
Qed.

Lemma length_array_init e n args bs :
  array_init e n args = Ok bs ->
  length bs = (length args * scalar_size e)%nat /\ (length args <= n)%nat.
Proof.
  revert n bs. induction args as [|v args IH]; intros n bs; cbn [array_init].
  - intros [= <-]. cbn. lia.
  - destruct n as [|n]; [discriminate|].
    destruct (scalar_set e v) as [b1|] eqn:E1; [|discriminate].
    destruct (array_init e n args) as [b2|] eqn:E2; [|discriminate].
    intros [= <-]. destruct (IH n b2 E2) as [Hl Hn].
    rewrite length_app, (length_scalar_set _ _ _ E1), Hl. cbn [length]. lia.
Qed.

(** A list with more items than the array has is refused by the first item
    the item type refuses among those that have a place, and by the first
    item without a place when there is none. *)
Lemma array_init_overlong e n args :
  (n < length args)%nat ->
  exists x, array_init e n args = Raise x
            /\ (x = IndexError \/ x = TypeError)
            /\ (x = IndexError
                <-> Forall (fun v => returns (scalar_set e v)) (take n args)).
Proof.
  revert n. induction args as [|v args IH]; intros n Hn; [cbn in Hn; lia|].
  cbn [array_init]. destruct n as [|n].
  - exists IndexError. split; [reflexivity|]. split; [now left|].
    split; [intros _; apply Forall_nil_2|reflexivity].
  - cbn [take]. destruct (scalar_set e v) as [b1|y] eqn:E1.
    + destruct (IH n ltac:(cbn in Hn; lia)) as (x & -> & Hx & Hiff).
      exists x. split; [reflexivity|]. split; [exact Hx|].
      rewrite Hiff. split.
      * intros H. apply Forall_cons_2; [rewrite E1; now exists b1|exact H].
      * intros H. now apply Forall_cons_1 in H as [_ H].
    + apply scalar_set_raises in E1 as Hy. subst y.
      exists TypeError. split; [reflexivity|]. split; [now right|].
      split; [discriminate|].
      intros H. apply Forall_cons_1 in H as [[b Hb] _]. rewrite E1 in Hb.
      discriminate.
Qed.

Lemma fill_pad (n : nat) (bs : bytes) :
  (length bs <= n)%nat -> fill n bs = bs ++ repeat x00 (n - length bs).
Proof.
  intros H. unfold fill. rewrite take_app_ge by exact H. f_equal.
  assert (Hk : forall k m, (k <= m)%nat -> take k (repeat x00 m) = repeat x00 k).
  { induction k as [|k IHk]; intros m Hm; [reflexivity|].
    destruct m as [|m]; [lia|]. cbn [repeat take]. f_equal. apply IHk. lia. }
  apply Hk. lia.
Qed.

Lemma length_chunks k n bs : length (chunks k n bs) = n.
Proof.
  revert bs. induction n as [|n IH]; intros bs; cbn [chunks length];
    [reflexivity|now rewrite IH].
Qed.

Lemma length_until_null bs : (length (until_null bs) <= length bs)%nat.
Proof.
  induction bs as [|b bs IH]; cbn [until_null length]; [lia|].
  destruct (Byte.eqb b x00); cbn [length]; lia.
Qed.

Lemma until_null_filled (n : nat) (text rest : bytes) :
  x00 ∉ text -> (length text <= n)%nat ->
  until_null (take n (text ++ x00 :: rest)) = text.
Proof.
  revert n. induction text as [|b text IH]; intros n Hno Hlen.
  - destruct n; reflexivity.
  - destruct n as [|n]; [cbn in Hlen; lia|].
    cbn [app take until_null]. destruct (Byte.eqb b x00) eqn:E.
    + apply Byte.byte_dec_bl in E. subst b. exfalso. apply Hno.
      apply elem_of_cons. now left.
    + f_equal. apply IH; [|cbn in Hlen; lia].
      intros Hin. apply Hno. apply elem_of_cons. now right.
Qed.

Lemma log_inj w c c' : log w c = log w c' -> c = c'.
Proof.
  intros H. apply (f_equal trace) in H. cbn [trace log] in H.
  apply app_inv_head in H. now injection H.
Qed.

(** *** The length of a text and of its encoding *)

Section Utf8Lengths.

Local Open Scope N_scope.



Lemma byte_of_N_not_null n : 0 < n < 256 -> byte_of_N n <> x00.
Proof.
  intros H E. apply (f_equal Byte.to_N) in E.
  rewrite to_N_byte_of_N in E by lia. cbn in E. lia.
Qed.

Lemma utf8_encode_cp_no_null c bs :
  c <> 0 -> utf8_encode_cp c = Some bs -> x00 ∉ bs.
Proof.
  intros Hc. unfold utf8_encode_cp.
  assert (Hin : forall l : list N,
             Forall (fun n => 0 < n < 256) l -> x00 ∉ map byte_of_N l).
  { intros l Hl [n [E Hn]]%list_elem_of_fmap.
    rewrite Forall_forall in Hl. symmetry in E.
    apply (byte_of_N_not_null n); [|exact E]. apply Hl.
    first [exact Hn | now apply list_elem_of_In]. }
  assert (D2 : c / 0x1000 = c / 0x40 / 0x40) by (now rewrite N.Div0.div_div).
  assert (D3 : c / 0x40000 = c / 0x1000 / 0x40) by (now rewrite N.Div0.div_div).
  pose proof (N.div_mod c 0x40 ltac:(lia)) as E1.
  pose proof (N.mod_lt c 0x40 ltac:(lia)) as L1.
  pose proof (N.div_mod (c / 0x40) 0x40 ltac:(lia)) as E2.
  pose proof (N.mod_lt (c / 0x40) 0x40 ltac:(lia)) as L2.
  pose proof (N.div_mod (c / 0x1000) 0x40 ltac:(lia)) as E3.
  pose proof (N.mod_lt (c / 0x1000) 0x40 ltac:(lia)) as L3.
  rewrite <- D2 in E2. rewrite <- D3 in E3. clear D2 D3.
  remember (c mod 0x40) as r0 eqn:R0.
  remember ((c / 0x40) mod 0x40) as r1 eqn:R1.
  remember ((c / 0x1000) mod 0x40) as r2 eqn:R2.
  remember (c / 0x40) as q0 eqn:Q0.
  remember (c / 0x1000) as q1 eqn:Q1.
  remember (c / 0x40000) as q2 eqn:Q2.
  clear R0 R1 R2 Q0 Q1 Q2.
  destruct (N.ltb_spec c 0x80).
  { intros [= <-]. apply (Hin [_]).
    repeat (apply Forall_cons_2; [cbv beta; lia|]). apply Forall_nil_2. }
  destruct (N.ltb_spec c 0x800).
  { intros [= <-]. apply (Hin [_; _]).
    repeat (apply Forall_cons_2; [cbv beta; lia|]). apply Forall_nil_2. }
  destruct (N.ltb_spec c 0x10000).
  { destruct (_ && _); [discriminate|]. intros [= <-]. apply (Hin [_; _; _]).
    repeat (apply Forall_cons_2; [cbv beta; lia|]). apply Forall_nil_2. }
  destruct (N.ltb_spec c 0x110000); [|discriminate].
  intros [= <-]. apply (Hin [_; _; _; _]).
  repeat (apply Forall_cons_2; [cbv beta; lia|]). apply Forall_nil_2.
Qed.

Lemma utf8_encode_no_null s bs :
  0 ∉ s -> utf8_encode s = Some bs -> x00 ∉ bs.
Proof.
  revert bs. induction s as [|c s IH]; intros bs Hs; cbn [utf8_encode].
  - intros [= <-]. apply not_elem_of_nil.
  - destruct (utf8_encode_cp c) as [b|] eqn:Ec; [|discriminate].
    destruct (utf8_encode s) as [bs'|]; [|discriminate].
    intros [= <-]. intros [H|H]%elem_of_app.
    + revert H. eapply utf8_encode_cp_no_null; [|exact Ec].
      intros ->. apply Hs. apply elem_of_cons. now left.
    + revert H. apply IH; [|reflexivity].
      intros Hin. apply Hs. apply elem_of_cons. now right.
Qed.

(** A decoded text has at most as many characters as there are bytes. *)
Lemma utf8_decode_length bs s :
  utf8_decode bs = Some s -> (length s <= length bs)%nat.
Proof.
  remember (length bs) as n eqn:Hn. revert bs s Hn.
  induction n as [n IH] using lt_wf_ind. intros bs s Hn.
  destruct bs as [|b0 r0]; [intros [= <-]; cbn; lia|].
  cbn [utf8_decode].
  assert (Hstep : forall (r : bytes) (c : N),
             (length r < n)%nat -> cons c <$> utf8_decode r = Some s ->
             (length s <= n)%nat).
  { intros r c Hr H. apply fmap_Some in H as (s' & Hs' & ->).
    specialize (IH _ Hr r s' eq_refl Hs'). cbn [length]. lia. }
  cbn [length] in Hn.
  destruct (in_range 0 127 b0); [apply Hstep; lia|].
  destruct r0 as [|b1 r1]; [discriminate|]. cbn [length] in Hn.
  destruct (_ && _); [apply Hstep; lia|].
  destruct r1 as [|b2 r2]; [discriminate|]. cbn [length] in Hn.
  destruct (_ && _); [apply Hstep; lia|].
  destruct r2 as [|b3 r3]; [discriminate|]. cbn [length] in Hn.
  destruct (_ && _); [apply Hstep; lia|discriminate].
Qed.

End Utf8Lengths.
(** ** What every function keeps *)

Section Keeps.

Context (env : Env) (R : World -> World -> Prop) `{!PreOrder R}.

Hypothesis R_log : forall w c, R w (log w c).

Lemma keeps_ret {A} (a : A) : keeps R (ret_M a).
Proof. intros w. reflexivity. Qed.

Lemma keeps_raise {A} (e : exn) : keeps R (@raise A e).
Proof. intros w. reflexivity. Qed.

Lemma keeps_pure {A} (r : Result A) : keeps R (pure r).
Proof. intros w. reflexivity. Qed.

Lemma keeps_call_dll (c : Call) : keeps R (call_dll env c).
Proof. intros w. apply R_log. Qed.

Lemma keeps_bind {A B} (m : M A) (k : A -> M B) :
  keeps R m -> (forall a, keeps R (k a)) -> keeps R (bind_M m k).
Proof.
  intros Hm Hk w. unfold bind_M. specialize (Hm w).
  destruct (m w) as [[a|e] w1]; cbn [snd] in *; [|exact Hm].
  etransitivity; [exact Hm|apply Hk].
Qed.

Lemma keeps_win32_only {A} (name : string) (fn : M A) :
  keeps R fn -> keeps R (win32_only env name fn).
Proof.
  intros H w. unfold win32_only.
  destruct (platform_is_windows env); cbn [negb]; [apply H|reflexivity].
Qed.

Lemma keeps_check_errCode (errCode : Z) : keeps R (check_errCode env errCode).
Proof.
  unfold check_errCode. destruct (negb _); [apply keeps_raise|apply keeps_ret].
Qed.

Lemma keeps_map_M {A B} (f : A -> B) (m : M A) : keeps R m -> keeps R (map_M f m).
Proof. intros H. apply keeps_bind; [exact H|intros a; apply keeps_ret]. Qed.

Ltac keeps_step :=
  first
    [ apply keeps_win32_only
    | apply keeps_call_dll
    | apply keeps_check_errCode
    | apply keeps_ret
    | apply keeps_raise
    | apply keeps_pure
    | apply keeps_map_M
    | apply keeps_bind; [|intros ?]
    | match goal with
      | |- keeps _ (let (_, _) := ?p in _) => destruct p
      | |- keeps _ (match ?x with _ => _ end) => destruct x
      | |- keeps _ (if ?b then _ else _) => destruct b
      end ].

Lemma keeps_adsSyncWriteReq adr indexGroup indexOffset value plcDataType :
  keeps R (adsSyncWriteReq env adr indexGroup indexOffset value plcDataType).
Proof. unfold adsSyncWriteReq. repeat keeps_step. Qed.

Lemma keeps_adsSyncReadReq adr indexGroup indexOffset plcDataType :
  keeps R (adsSyncReadReq env adr indexGroup indexOffset plcDataType).
Proof. unfold adsSyncReadReq. cbv zeta. repeat keeps_step. Qed.

Lemma keeps_adsSyncReadWriteReq adr indexGroup indexOffset plcReadDataType value
    plcWriteDataType :
  keeps R (adsSyncReadWriteReq env adr indexGroup indexOffset plcReadDataType value
             plcWriteDataType).
Proof. unfold adsSyncReadWriteReq. cbv zeta. repeat keeps_step. Qed.

(** A function that does not manage notifications keeps what every call of
    the DLL keeps. *)
Lemma keeps_invoke_other (i : Invocation) :
  notification i = false -> keeps R (invoke env i).
Proof.
  intros Hn. destruct i; try discriminate Hn; cbn [invoke]; apply keeps_map_M.
  - unfold adsGetDllVersion. cbv zeta. repeat keeps_step.
  - unfold adsPortOpen. cbv zeta. repeat keeps_step.
  - unfold adsPortClose. cbv zeta. repeat keeps_step.
  - unfold adsGetLocalAddress. cbv zeta. repeat keeps_step.
  - unfold adsSyncReadStateReq. cbv zeta. repeat keeps_step.
  - unfold adsSyncReadDeviceInfoReq. cbv zeta. repeat keeps_step.
  - unfold adsSyncWriteControlReq. cbv zeta. repeat keeps_step.
  - apply keeps_adsSyncWriteReq.
  - apply keeps_adsSyncReadWriteReq.
  - apply keeps_adsSyncReadReq.
  - unfold adsSyncReadByName. apply keeps_win32_only.
    apply keeps_bind; [apply keeps_adsSyncReadWriteReq|intros hnl].
    apply keeps_bind; [apply keeps_pure|intros offset].
    apply keeps_bind; [apply keeps_adsSyncReadReq|intros value].
    apply keeps_bind; [apply keeps_adsSyncWriteReq|intros _]. apply keeps_ret.
  - unfold adsSyncWriteByName. apply keeps_win32_only.
    apply keeps_bind; [apply keeps_adsSyncReadWriteReq|intros hnl].
    apply keeps_bind; [apply keeps_pure|intros offset].
    apply keeps_bind; [apply keeps_adsSyncWriteReq|intros _].
    apply keeps_adsSyncWriteReq.
  - unfold adsSyncSetTimeout. cbv zeta. repeat keeps_step.
Qed.

Hypothesis R_store : forall w key value, R w (store w key value).

Lemma keeps_callback_store_set key value : keeps R (callback_store_set key value).
Proof. intros w. apply R_store. Qed.

(** With the assignments to [callback_store] as well, every function. *)
Lemma keeps_invoke (i : Invocation) : keeps R (invoke env i).
Proof.
  destruct (notification i) eqn:Hn; [|now apply keeps_invoke_other].
  destruct i; try discriminate Hn; cbn [invoke]; apply keeps_map_M.
  - unfold adsSyncAddDeviceNotificationReq. apply keeps_win32_only.
    apply keeps_bind; [apply keeps_adsSyncReadWriteReq|intros hnl].
    apply keeps_bind; [apply keeps_pure|intros h]. cbv zeta.
    destruct (NOTEFUNC env); [|apply keeps_raise].
    apply keeps_bind; [apply keeps_call_dll|intros r].
    apply keeps_bind; [apply keeps_check_errCode|intros _].
    apply keeps_bind; [apply keeps_callback_store_set|intros _]. apply keeps_ret.
  - unfold adsSyncDelDeviceNotificationReq. apply keeps_win32_only. cbv zeta.
    apply keeps_bind; [apply keeps_call_dll|intros r].
    apply keeps_bind; [apply keeps_callback_store_set|intros _].
    apply keeps_bind; [apply keeps_check_errCode|intros _].
    apply keeps_adsSyncWriteReq.
Qed.

End Keeps.

#[local] Instance same_store_preorder : PreOrder same_store.
Proof.
  split; [intros w; reflexivity|].
  intros w1 w2 w3 H12 H23. unfold same_store in *. congruence.
Qed.

#[local] Instance store_grows_preorder : PreOrder store_grows.
Proof.
  split; [intros w; unfold store_grows; set_solver|].
  intros w1 w2 w3 H12 H23. unfold store_grows in *. set_solver.
Qed.

(** X1. On every platform, a function other than the two that manage
    notifications leaves [callback_store] as it was, whatever the DLL answers
    and whether it returns or raises. *)
Theorem callback_store_untouched (env : Env) (i : Invocation) (w : World) :
  notification i = false ->
  callback_store (snd (invoke env i w)) = callback_store w.
Proof.
  intros Hn. apply (keeps_invoke_other env same_store); [|exact Hn].
  intros w0 c. reflexivity.
Qed.

(** X2. On every platform, no function removes a key from
    [callback_store]: the keys before a call are keys after it, whatever the
    function and whether it returns or raises. *)
Theorem callback_store_keys_stay (env : Env) (i : Invocation) (w : World) :
  dom (callback_store w) ⊆ dom (callback_store (snd (invoke env i w))).
Proof.
  apply (keeps_invoke env store_grows).
  - intros w0 c. unfold store_grows. reflexivity.
  - intros w0 key value. unfold store_grows. cbn [store callback_store].
    rewrite dom_insert_L. set_solver.
Qed.

(** ** How many calls of the DLL a function makes *)

Section Calls.

Context (env : Env).

Lemma appends_refl n w : appends n w w.
Proof. exists []. split; [now rewrite app_nil_r|cbn; lia]. Qed.

Lemma appends_trans a b w1 w2 w3 :
  appends a w1 w2 -> appends b w2 w3 -> appends (a + b) w1 w3.
Proof.
  intros (n1 & E1 & L1) (n2 & E2 & L2). exists (n1 ++ n2).
  split; [now rewrite E2, E1, app_assoc|]. rewrite length_app. lia.
Qed.

Lemma appends_weaken a b w1 w2 : (a <= b)%nat -> appends a w1 w2 -> appends b w1 w2.
Proof. intros H (n & E & L). exists n. split; [exact E|lia]. Qed.

Lemma calls_leaf {A} n (r : Result A) : keeps (appends n) (pure r).
Proof. intros w. apply appends_refl. Qed.

Lemma calls_call_dll n (c : Call) : keeps (appends (S n)) (call_dll env c).
Proof. intros w. exists [c]. split; [reflexivity|cbn; lia]. Qed.

Lemma calls_bind {A B} a b (m : M A) (k : A -> M B) :
  keeps (appends a) m -> (forall x, keeps (appends b) (k x)) ->
  keeps (appends (a + b)) (bind_M m k).
Proof.
  intros Hm Hk w. unfold bind_M. specialize (Hm w).
  destruct (m w) as [[x|e] w1]; cbn [snd] in *.
  - eapply appends_trans; [exact Hm|apply Hk].
  - eapply appends_weaken; [|exact Hm]. lia.
Qed.

Lemma calls_win32_only {A} n (name : string) (fn : M A) :
  keeps (appends n) fn -> keeps (appends n) (win32_only env name fn).
Proof.
  intros H w. unfold win32_only.
  destruct (platform_is_windows env); cbn [negb]; [apply H|apply appends_refl].
Qed.

Lemma calls_check_errCode n errCode : keeps (appends n) (check_errCode env errCode).
Proof. intros w. unfold check_errCode. destruct (negb _); apply appends_refl. Qed.

Lemma calls_map_M {A B} n (f : A -> B) (m : M A) :
  keeps (appends n) m -> keeps (appends n) (map_M f m).
Proof.
  intros H. unfold map_M. replace n with (n + 0)%nat by lia.
  apply calls_bind; [exact H|]. intros x w. apply appends_refl.
Qed.

Lemma calls_adsSyncWriteReq adr indexGroup indexOffset value plcDataType :
  keeps (appends 1) (adsSyncWriteReq env adr indexGroup indexOffset value plcDataType).
Proof.
  unfold adsSyncWriteReq. apply calls_win32_only. cbv zeta.
  apply (calls_bind 0 1); [apply calls_leaf|intros [n d]].
  apply (calls_bind 1 0); [apply calls_call_dll|intros r]. apply calls_check_errCode.
Qed.

Lemma calls_adsSyncReadWriteReq adr indexGroup indexOffset plcReadDataType value
    plcWriteDataType :
  keeps (appends 1)
    (adsSyncReadWriteReq env adr indexGroup indexOffset plcReadDataType value
       plcWriteDataType).
Proof.
  unfold adsSyncReadWriteReq. apply calls_win32_only. cbv zeta.
  apply (calls_bind 0 1); [apply calls_leaf|intros [n d]].
  apply (calls_bind 1 0); [apply calls_call_dll|intros r].
  apply (calls_bind 0 0); [apply calls_check_errCode|intros _].
  destruct (ctype_eqb _ _); [|intros w; apply appends_refl].
  apply (calls_bind 0 0); [apply calls_leaf|intros s w; apply appends_refl].
Qed.

Lemma calls_adsSyncReadReq adr indexGroup indexOffset plcDataType :
  keeps (appends 1) (adsSyncReadReq env adr indexGroup indexOffset plcDataType).
Proof.
  unfold adsSyncReadReq. apply calls_win32_only. cbv zeta.
  apply (calls_bind 1 0); [apply calls_call_dll|intros r].
  apply (calls_bind 0 0); [apply calls_check_errCode|intros _].
  destruct (ctype_eqb _ _); [|intros w; apply appends_refl].
  apply (calls_bind 0 0); [apply calls_leaf|intros s w; apply appends_refl].
Qed.

(** X3. On every platform, a call of a public function only appends to the
    log of DLL calls, and by at most as many calls as the function has in its
    text: three for the access by name, two for the notifications, one for
    every other function. *)
Theorem calls_bounded (i : Invocation) (w : World) :
  exists new,
    trace (snd (invoke env i w)) = trace w ++ new
    /\ (length new <= max_calls i)%nat.
Proof.
  revert w. change (keeps (appends (max_calls i)) (invoke env i)).
  destruct i; cbn [invoke max_calls]; apply calls_map_M.
  - unfold adsGetDllVersion. apply calls_win32_only. cbv zeta.
    apply (calls_bind 1 0); [apply calls_call_dll|intros r w; apply appends_refl].
  - unfold adsPortOpen. apply calls_win32_only. cbv zeta.
    apply (calls_bind 1 0); [apply calls_call_dll|intros r w; apply appends_refl].
  - unfold adsPortClose. apply calls_win32_only. cbv zeta.
    apply (calls_bind 1 0); [apply calls_call_dll|intros r]. apply calls_check_errCode.
  - unfold adsGetLocalAddress. apply calls_win32_only. cbv zeta.
    apply (calls_bind 1 0); [apply calls_call_dll|intros r].
    apply (calls_bind 0 0); [apply calls_check_errCode|intros _ w; apply appends_refl].
  - unfold adsSyncReadStateReq. apply calls_win32_only. cbv zeta.
    apply (calls_bind 1 0); [apply calls_call_dll|intros r].
    apply (calls_bind 0 0); [apply calls_check_errCode|intros _ w; apply appends_refl].
  - unfold adsSyncReadDeviceInfoReq. apply calls_win32_only. cbv zeta.
    apply (calls_bind 1 0); [apply calls_call_dll|intros r].
    apply (calls_bind 0 0); [apply calls_check_errCode|intros _].
    apply (calls_bind 0 0); [apply calls_leaf|intros s w; apply appends_refl].
  - unfold adsSyncWriteControlReq. apply calls_win32_only. cbv zeta.
    apply (calls_bind 0 1); [apply calls_leaf|intros [n d]].
    apply (calls_bind 1 0); [apply calls_call_dll|intros r]. apply calls_check_errCode.
  - apply calls_adsSyncWriteReq.
  - apply calls_adsSyncReadWriteReq.
  - apply calls_adsSyncReadReq.
  - unfold adsSyncReadByName. apply calls_win32_only.
    apply (calls_bind 1 2); [apply calls_adsSyncReadWriteReq|intros hnl].
    apply (calls_bind 0 2); [apply calls_leaf|intros offset].
    apply (calls_bind 1 1); [apply calls_adsSyncReadReq|intros value].
    apply (calls_bind 1 0); [apply calls_adsSyncWriteReq|intros _ w; apply appends_refl].
  - unfold adsSyncWriteByName. apply calls_win32_only.
    apply (calls_bind 1 2); [apply calls_adsSyncReadWriteReq|intros hnl].
    apply (calls_bind 0 2); [apply calls_leaf|intros offset].
    apply (calls_bind 1 1); [apply calls_adsSyncWriteReq|intros _].
    apply calls_adsSyncWriteReq.
  - unfold adsSyncAddDeviceNotificationReq. apply calls_win32_only.
    apply (calls_bind 1 1); [apply calls_adsSyncReadWriteReq|intros hnl].
    apply (calls_bind 0 1); [apply calls_leaf|intros h]. cbv zeta.
    destruct (NOTEFUNC env); [|intros w; apply appends_refl].
    apply (calls_bind 1 0); [apply calls_call_dll|intros r].
    apply (calls_bind 0 0); [apply calls_check_errCode|intros _].
    apply (calls_bind 0 0); [|intros _ w; apply appends_refl].
    intros w. exists []. split; [cbn; now rewrite app_nil_r|cbn; lia].
  - unfold adsSyncDelDeviceNotificationReq. apply calls_win32_only. cbv zeta.
    apply (calls_bind 1 1); [apply calls_call_dll|intros r].
    apply (calls_bind 0 1).
    { intros w. exists []. split; [cbn; now rewrite app_nil_r|cbn; lia]. }
    intros _. apply (calls_bind 0 1); [apply calls_check_errCode|intros _].
    apply calls_adsSyncWriteReq.
  - unfold adsSyncSetTimeout. apply calls_win32_only. cbv zeta.
    apply (calls_bind 1 0); [apply calls_call_dll|intros r]. apply calls_check_errCode.
Qed.

End Calls.

(** ** The functions outside the request layer *)

Section PyadsOnWindows.

Context (env : Env).

Hypothesis windows : platform_is_windows env = true.

Ltac run_on_windows :=
  rewrite win32_only_windows by exact windows;
  unfold bind_M, call_dll, check_errCode, callback_store_set, pure, ret_M, raise.

(** A function that makes the call [c] and checks its status. *)
Lemma checked_outcome {A} (f : A -> Returned) (m : M A) (w : World) (c : Call)
    (ok : Result A) :
  m w = (if status env w c =? 0 then ok
         else Raise (ADSError_init env (status env w c)), log w c) ->
  ~ raises_ADSError ok ->
  snd (map_M f m w) = log w c
  /\ (status env w c <> 0
      <-> fst (map_M f m w) = Raise (ADSError_init env (status env w c)))
  /\ (forall err_code msg,
        fst (map_M f m w) = Raise (ADSError err_code msg) ->
        err_code = status env w c)
  /\ (returns (fst (map_M f m w)) -> status env w c = 0).
Proof.
  intros Hm Hok. unfold map_M, bind_M, ret_M. rewrite Hm.
  assert (Hok' : ~ raises_ADSError
                    (match ok with Ok a => Ok (f a) | Raise e => Raise e end)).
  { destruct ok; [intros (x & y & [=])|]. intros (x & y & [= ->]).
    apply Hok. now exists x, y. }
  pose proof (status_outcome env (status env w c) _ Hok') as Hs. cbv zeta in Hs.
  destruct (status env w c =? 0); destruct ok; cbn [fst snd] in *;
    (split; [reflexivity|exact Hs]).
Qed.

(** X4. On Windows, each of [adsPortClose], [adsGetLocalAddress],
    [adsSyncReadStateReq], [adsSyncReadDeviceInfoReq] and [adsSyncSetTimeout]
    makes exactly one call of the DLL, raises the [ADSError] of its status
    exactly when the status is not zero, raises no [ADSError] of another code,
    and returns only when the status is zero. *)
Theorem status_checked_functions (i : Invocation) (w : World) :
  status_checked i = true ->
  exists c,
    snd (invoke env i w) = log w c
    /\ (status env w c <> 0
        <-> fst (invoke env i w) = Raise (ADSError_init env (status env w c)))
    /\ (forall err_code msg,
          fst (invoke env i w) = Raise (ADSError err_code msg) ->
          err_code = status env w c)
    /\ (returns (fst (invoke env i w)) -> status env w c = 0).
Proof.
  intros Hi. destruct i; try discriminate Hi; cbn [invoke]; eexists.
  - eapply (checked_outcome _ _ w AdsPortClose (Ok tt)); [|intros (x & y & [=])].
    unfold adsPortClose. run_on_windows. unfold status.
    change (restype_c_long ?r) with (restype_c_int r).
    destruct (_ =? 0); reflexivity.
  - eapply (checked_outcome _ _ w AdsGetLocalAddress (Ok _)); [|intros (x & y & [=])].
    unfold adsGetLocalAddress. run_on_windows. unfold status.
    destruct (_ =? 0); reflexivity.
  - eapply (checked_outcome _ _ w (AdsSyncReadStateReq adr) (Ok _));
      [|intros (x & y & [=])].
    unfold adsSyncReadStateReq. run_on_windows. unfold status.
    destruct (_ =? 0); reflexivity.
  - eapply (checked_outcome _ _ w (AdsSyncReadDeviceInfoReq adr)
              (match decode (until_null (received env 20 w (AdsSyncReadDeviceInfoReq adr)))
               with
               | Ok name => Ok (name, _)
               | Raise e => Raise e
               end)).
    + unfold adsSyncReadDeviceInfoReq. run_on_windows. unfold status, received.
      destruct (_ =? 0); cbn [negb]; [|reflexivity]. destruct (decode _); reflexivity.
    + unfold decode. destruct (utf8_decode _); intros (x & y & [=]).
  - eapply (checked_outcome _ _ w (AdsSyncSetTimeout (wrap_signed 32 nMs)) (Ok tt));
      [|intros (x & y & [=])].
    unfold adsSyncSetTimeout. run_on_windows. unfold status.
    destruct (_ =? 0); reflexivity.
Qed.

(** X5. On Windows, [adsPortOpen] and [adsGetDllVersion] check no status:
    whatever the DLL returns, each makes its one call and returns, and the
    port number is the value of the DLL as a signed integer of 32 bits, also
    when that is zero or negative. *)
Theorem unchecked_functions_return (w : World) :
  (exists portNr,
      adsPortOpen env w = (Ok portNr, log w AdsPortOpen)
      /\ portNr = wrap_signed 32 (ret (_adsDLL env (trace w) AdsPortOpen))
      /\ - 2 ^ 31 <= portNr < 2 ^ 31)
  /\ (exists v, adsGetDllVersion env w = (Ok v, log w AdsGetDllVersion)).
Proof.
  split.
  - eexists. split; [|split; [reflexivity|]].
    + unfold adsPortOpen. run_on_windows. reflexivity.
    + apply (wrap_signed_range 32). lia.
  - eexists. unfold adsGetDllVersion. run_on_windows. reflexivity.
Qed.

(** ** Resolution, release and the registry *)

(** A resolution that raises has made at most its own request, which is no
    release, and has left [callback_store] as it was. *)
Lemma resolve_raises adr name w e w1 :
  resolve env adr name w = (Raise e, w1) ->
  callback_store w1 = callback_store w
  /\ exists new, trace w1 = trace w ++ new /\ (length new <= 1)%nat
                 /\ released env new = [].
Proof.
  rewrite (resolve_run env windows). destruct (encode name) as [enc|x].
  - cbv zeta. intros [= _ <-]. split; [reflexivity|].
    exists [resolve_call env adr name enc]. split; [reflexivity|]. split; [cbn; lia|].
    now apply released_other.
  - intros [= _ <-]. split; [reflexivity|]. exists [].
    split; [now rewrite app_nil_r|]. split; [cbn; lia|reflexivity].
Qed.

Lemma resolve_raises_propagates adr name plcDataType value pNoteAttrib callback
    user_handle w e w1 :
  resolve env adr name w = (Raise e, w1) ->
  adsSyncReadByName env adr name plcDataType w = (Raise e, w1)
  /\ adsSyncWriteByName env adr name value plcDataType w = (Raise e, w1)
  /\ adsSyncAddDeviceNotificationReq env adr name pNoteAttrib callback user_handle w
     = (Raise e, w1).
Proof.
  intros Hres. unfold resolve in Hres. split; [|split].
  - unfold adsSyncReadByName. run_on_windows. now rewrite Hres.
  - unfold adsSyncWriteByName. run_on_windows. now rewrite Hres.
  - unfold adsSyncAddDeviceNotificationReq. run_on_windows. now rewrite Hres.
Qed.

(** X6. On Windows, when the resolution of the name raises (the name cannot
    be encoded, or the DLL returns a status that is not zero),
    [adsSyncReadByName], [adsSyncWriteByName] and
    [adsSyncAddDeviceNotificationReq] raise the same exception from the same
    state: at most the resolution request has been made, and no read, write,
    registration or release follows it. *)
Theorem resolution_failure adr name plcDataType value pNoteAttrib callback
    user_handle w e w1 :
  resolve env adr name w = (Raise e, w1) ->
  adsSyncReadByName env adr name plcDataType w = (Raise e, w1)
  /\ adsSyncWriteByName env adr name value plcDataType w = (Raise e, w1)
  /\ adsSyncAddDeviceNotificationReq env adr name pNoteAttrib callback user_handle w
     = (Raise e, w1)
  /\ exists new, trace w1 = trace w ++ new /\ (length new <= 1)%nat
                 /\ released env new = [].
Proof.
  intros Hres. destruct (resolve_raises _ _ _ _ _ Hres) as [_ Hnew].
  destruct (resolve_raises_propagates adr name plcDataType value pNoteAttrib callback
              user_handle w e w1 Hres) as (H1 & H2 & H3).
  repeat split; assumption.
Qed.

(** X7. On Windows, when the name is resolved and the read through the
    handle returns, [adsSyncReadByName] makes the release request, and the
    status of the release decides the outcome: zero gives the value read, any
    other status raises its [ADSError], and the value read is not returned.
    Likewise, on its own, [adsSyncWriteByName] when the write through the
    handle returns: zero gives [None], any other status its [ADSError]. *)
Theorem by_name_release_outcome adr dataName value plcDataType w h w1 :
  resolve env adr dataName w = (Ok (VInt h), w1) ->
  (forall v w_rd,
      adsSyncReadReq env adr (ADSIGRP_SYM_VALBYHND env) h plcDataType w1
      = (Ok v, w_rd) ->
      adsSyncReadByName env adr dataName plcDataType w
      = (if status env w_rd (release_call env adr h) =? 0 then Ok v
         else Raise (ADSError_init env (status env w_rd (release_call env adr h))),
         log w_rd (release_call env adr h)))
  /\ (forall w_wr,
        adsSyncWriteReq env adr (ADSIGRP_SYM_VALBYHND env) h value plcDataType w1
        = (Ok tt, w_wr) ->
        adsSyncWriteByName env adr dataName value plcDataType w
        = (if status env w_wr (release_call env adr h) =? 0 then Ok tt
           else Raise (ADSError_init env (status env w_wr (release_call env adr h))),
           log w_wr (release_call env adr h))).
Proof.
  intros Hres. unfold resolve in Hres. split.
  - intros v w_rd Hrd. unfold adsSyncReadByName. run_on_windows. rewrite Hres.
    cbn [as_int]. rewrite Hrd, (release_run env windows).
    destruct (_ =? 0); reflexivity.
  - intros w_wr Hwr. unfold adsSyncWriteByName. run_on_windows. rewrite Hres.
    cbn [as_int]. rewrite Hwr, (release_run env windows). reflexivity.
Qed.

(** X8. On Windows, [adsSyncAddDeviceNotificationReq] changes
    [callback_store] only when it returns, and then only the slot of the
    notification handle it returns, which holds the callback; when it raises,
    at whatever step, [callback_store] is as before. *)
Theorem add_notification_store adr data_name pNoteAttrib callback user_handle w :
  let run := adsSyncAddDeviceNotificationReq env adr data_name pNoteAttrib callback
               user_handle w in
  callback_store (snd run)
  = match fst run with
    | Ok (notification_handle, _) =>
        <[notification_handle := Some callback]> (callback_store w)
    | Raise _ => callback_store w
    end.
Proof.
  cbv zeta. destruct (resolve env adr data_name w) as [[hnl|e] w1] eqn:Hres.
  - destruct (resolve_returns env windows _ _ _ _ _ Hres)
      as (h & c1 & -> & Hh & -> & Hc1).
    rewrite (adsSyncAddDeviceNotificationReq_run env windows _ _ _ _ _ _ _ _ Hres).
    cbv zeta. destruct (_ =? 0); reflexivity.
  - destruct (resolve_raises _ _ _ _ _ Hres) as [Hst _].
    destruct (resolve_raises_propagates adr data_name PLCTYPE_UDINT VNone pNoteAttrib
                callback user_handle w e w1 Hres) as (_ & _ & ->).
    exact Hst.
Qed.

(** X9. On Windows, a call of [adsSyncAddDeviceNotificationReq] with a
    [user_handle] that returns has registered the notification with
    [user_handle], kept modulo [2 ^ 32], as the user handle, and still returns
    the resolved symbol handle, not the user handle, as second component. *)
Theorem add_notification_user_handle adr data_name pNoteAttrib callback user_handle
    w notification_handle hnl w' :
  adsSyncAddDeviceNotificationReq env adr data_name pNoteAttrib callback
    (Some user_handle) w
  = (Ok (notification_handle, hnl), w') ->
  exists h c1,
    resolve env adr data_name w = (Ok (VInt h), log w c1)
    /\ hnl = VInt h
    /\ trace w' = trace w ++
         [c1; AdsSyncAddDeviceNotificationReq adr
                (wrap_unsigned 32 (ADSIGRP_SYM_VALBYHND env)) h pNoteAttrib callback
                (user_handle mod 2 ^ 32)].
Proof.
  intros Hadd.
  destruct (resolve env adr data_name w) as [[hnl0|e] w1] eqn:Hres.
  2:{ destruct (resolve_raises_propagates adr data_name PLCTYPE_UDINT VNone
                  pNoteAttrib callback (Some user_handle) w e w1 Hres) as (_ & _ & H).
      rewrite H in Hadd. discriminate. }
  destruct (resolve_returns env windows _ _ _ _ _ Hres)
    as (h & c1 & -> & Hh & -> & Hc1).
  rewrite (adsSyncAddDeviceNotificationReq_run env windows _ _ _ _ _ _ _ _ Hres)
    in Hadd.
  cbv zeta in Hadd. destruct (_ =? 0); [|discriminate].
  injection Hadd as <- <- <-.
  exists h, c1. split; [reflexivity|]. split; [reflexivity|].
  cbn [trace log store]. now rewrite <- app_assoc.
Qed.

(** ** Values on the wire *)

(** X10. On Windows, a text without a null character whose encoding has
    at most [STRING_BUFFER] bytes survives the wire: when a read of the string
    type gets the status zero and the device hands back the bytes that
    [adsSyncWriteReq] sent for the text, the read returns the text. *)
Theorem string_round_trip adr indexGroup indexOffset s ascii_string w c_write w2 :
  utf8_encode s = Some ascii_string ->
  0%N ∉ s ->
  (length ascii_string <= STRING_BUFFER env)%nat ->
  snd (adsSyncWriteReq env adr indexGroup indexOffset (VStr s) PLCTYPE_STRING w)
  = log w c_write ->
  let c := AdsSyncReadReq adr (wrap_unsigned 32 indexGroup)
             (wrap_unsigned 32 indexOffset)
             (wrap_unsigned 32 (Z.of_nat (STRING_BUFFER env))) in
  status env w2 c = 0 ->
  out (_adsDLL env (trace w2) c) = call_data c_write ->
  adsSyncReadReq env adr indexGroup indexOffset PLCTYPE_STRING w2
  = (Ok (VStr s), log w2 c).
Proof.
  intros Henc Hs Hlen Hw c Hst Hout.
  pose proof (utf8_encode_no_null _ _ Hs Henc) as Hno.
  rewrite (adsSyncWriteReq_run env windows) in Hw.
  unfold write_data, c_char_p_payload, encode in Hw.
  cbn [ctype_eqb PLCTYPE_STRING scalar_eqb] in Hw. rewrite Henc in Hw.
  rewrite until_null_terminated, (until_null_all _ Hno) in Hw.
  cbv zeta in Hw. cbn [snd] in Hw. apply log_inj in Hw. subst c_write.
  cbn [call_data] in Hout.
  rewrite (adsSyncReadReq_string env windows adr indexGroup indexOffset w2 Hst).
  fold c. unfold received. rewrite Hout. unfold fill.
  rewrite <- app_assoc. cbn [app].
  rewrite (until_null_filled _ _ _ Hno Hlen).
  now rewrite (utf8_decode_encode _ _ Henc).
Qed.


Lemma shaped_read_result capacity plcDataType data :
  ctype_eqb plcDataType PLCTYPE_STRING = false ->
  length data = sizeof plcDataType ->
  shaped capacity plcDataType (read_result plcDataType data).
Proof.
  intros Hns Hlen. destruct plcDataType as [[| |sg wd]|e n];
    cbn [shaped read_result scalar_get]; try discriminate Hns.
  - eauto.
  - cbn [sizeof scalar_size] in Hlen. destruct sg.
    + eexists. split; [reflexivity|]. unfold fits, le_signed. rewrite Hlen.
      apply wrap_signed_range. pose proof (width_bytes_pos wd). lia.
    + eexists. split; [reflexivity|]. unfold fits.
      pose proof (le_unsigned_range data) as H. rewrite Hlen, pow_256 in H. exact H.
  - eexists. split; [reflexivity|]. unfold array_items.
    now rewrite length_map, length_chunks.
Qed.

(** X12. On Windows, what [adsSyncReadReq] returns has the shape of the
    type asked for, whatever the device wrote: a list of exactly as many items
    as the array type has, an integer within the range of an integer type, a
    truth value for [c_bool], and for the string type a text of at most
    [STRING_BUFFER] characters. *)
Theorem read_result_shaped adr indexGroup indexOffset plcDataType w v w' :
  adsSyncReadReq env adr indexGroup indexOffset plcDataType w = (Ok v, w') ->
  shaped (STRING_BUFFER env) plcDataType v.
Proof.
  rewrite (adsSyncReadReq_run env windows). cbv zeta.
  destruct (_ =? 0); [|discriminate].
  destruct (ctype_eqb plcDataType PLCTYPE_STRING) eqn:Hs.
  - destruct plcDataType as [[| |sg wd]|e n]; try discriminate Hs.
    unfold decode. destruct (utf8_decode _) as [s|] eqn:Hd; [|discriminate].
    intros [= <- _]. cbn [shaped]. eexists. split; [reflexivity|].
    apply utf8_decode_length in Hd.
    pose proof (length_until_null
                  (received env (read_size env (Simple c_char)) w
                     (AdsSyncReadReq adr (wrap_unsigned 32 indexGroup)
                        (wrap_unsigned 32 indexOffset)
                        (wrap_unsigned 32
                           (Z.of_nat (read_size env (Simple c_char))))))) as Hu.
    unfold received in Hu at 2. rewrite length_fill in Hu.
    change (Simple c_char) with PLCTYPE_STRING in Hu.
    rewrite (read_size_string env) in Hu.
    change (Simple c_char) with PLCTYPE_STRING in Hd.
    rewrite (read_size_string env) in Hd. lia.
  - intros [= <- _]. apply shaped_read_result; [exact Hs|].
    unfold received. rewrite length_fill. unfold read_size. now rewrite Hs.
Qed.

(** X14. On Windows, [adsSyncWriteReq] refuses these values before it calls
    the DLL.  A list with more items than the array type has: the items are
    stored one by one, so the exception is a [TypeError] when the item type
    refuses one of the items that have a place, and an [IndexError] when it
    takes them all.  For the string type, a value that is no text:
    [AttributeError].  A list that the array takes is sent as the whole
    array, the items given first and zero bytes after them. *)
Theorem write_argument_edges adr indexGroup indexOffset w :
  (forall e n items, (n < length items)%nat ->
     exists x,
       adsSyncWriteReq env adr indexGroup indexOffset (VList items)
         (PyCArrayType e n) w = (Raise x, w)
       /\ (x = IndexError \/ x = TypeError)
       /\ (x = IndexError
           <-> Forall (fun v => returns (scalar_set e v)) (take n items)))
  /\ (forall value, match value with VStr _ => False | _ => True end ->
        adsSyncWriteReq env adr indexGroup indexOffset value PLCTYPE_STRING w
        = (Raise AttributeError, w))
  /\ (forall e n items bs, array_init e n items = Ok bs ->
        (length items <= n)%nat
        /\ length bs = (length items * scalar_size e)%nat
        /\ snd (adsSyncWriteReq env adr indexGroup indexOffset (VList items)
                  (PyCArrayType e n) w)
           = log w (AdsSyncWriteReq adr (wrap_unsigned 32 indexGroup)
                      (wrap_unsigned 32 indexOffset)
                      (Z.of_nat (n * scalar_size e))
                      (bs ++ repeat x00 (n * scalar_size e - length bs)))).
Proof.
  split; [|split].
  - intros e n items Hlen.
    destruct (array_init_overlong e n items Hlen) as (x & Hx & Hor & Hiff).
    exists x. split; [|split; assumption].
    rewrite (adsSyncWriteReq_run env windows).
    unfold write_data. cbn [ctype_eqb is_PyCArrayType star c_new].
    now rewrite Hx.
  - intros value Hv. rewrite (adsSyncWriteReq_run env windows).
    unfold write_data. cbn [ctype_eqb PLCTYPE_STRING scalar_eqb].
    destruct value; try reflexivity. contradiction.
  - intros e n items bs Hset.
    destruct (length_array_init _ _ _ _ Hset) as [Hbs Hlen].
    split; [exact Hlen|]. split; [exact Hbs|].
    rewrite (adsSyncWriteReq_run env windows).
    unfold write_data. cbn [ctype_eqb is_PyCArrayType star c_new].
    rewrite Hset. cbn [sized sizeof]. cbv zeta.
    cbn [snd]. rewrite fill_pad; [reflexivity|].
    rewrite Hbs. now apply Nat.mul_le_mono_r.
Qed.

(** X15. On Windows, an integer survives the wire modulo the width of its
    type: when a read of an integer type gets the status zero and the device
    hands back the bytes that [adsSyncWriteReq] sent for the integer [z] with
    that type, the read returns [z] wrapped to the type, which is [z] itself
    when the type holds [z]. *)
Theorem integer_round_trip adr indexGroup indexOffset signed wd z w c_write w2 :
  let plcDataType := Simple (c_integer signed wd) in
  let bits := 8 * Z.of_nat (width_bytes wd) in
  let wrapped := if signed then wrap_signed bits z else wrap_unsigned bits z in
  snd (adsSyncWriteReq env adr indexGroup indexOffset (VInt z) plcDataType w)
  = log w c_write ->
  let c := AdsSyncReadReq adr (wrap_unsigned 32 indexGroup)
             (wrap_unsigned 32 indexOffset)
             (wrap_unsigned 32 (Z.of_nat (width_bytes wd))) in
  status env w2 c = 0 ->
  out (_adsDLL env (trace w2) c) = call_data c_write ->
  adsSyncReadReq env adr indexGroup indexOffset plcDataType w2
  = (Ok (VInt wrapped), log w2 c)
  /\ (fits signed wd z -> wrapped = z).
Proof.
  intros plcDataType bits wrapped Hw c Hst Hout.
  rewrite (adsSyncWriteReq_run env windows) in Hw.
  unfold write_data, plcDataType in Hw.
  cbn [ctype_eqb PLCTYPE_STRING scalar_eqb is_PyCArrayType c_new scalar_set sized
       sizeof scalar_size] in Hw.
  cbv zeta in Hw. cbn [snd] in Hw. apply log_inj in Hw. subst c_write.
  cbn [call_data] in Hout.
  assert (Hbits : 0 < bits) by (pose proof (width_bytes_pos wd); unfold bits; lia).
  split.
  - rewrite (adsSyncReadReq_run env windows). cbv zeta.
    unfold read_size, plcDataType.
    cbn [ctype_eqb PLCTYPE_STRING scalar_eqb sizeof scalar_size].
    fold c. rewrite Hst. cbn [Z.eqb]. unfold received. rewrite Hout.
    rewrite fill_exact by apply length_le_bytes.
    cbn [read_result scalar_get]. unfold wrapped, le_signed.
    rewrite length_le_bytes, le_unsigned_le_bytes, pow_256. fold bits.
    destruct signed; [|reflexivity].
    unfold wrap_signed. now rewrite Z.mod_mod by (apply Z.pow_nonzero; lia).
  - unfold fits, wrapped. fold bits. destruct signed.
    + intros Hz. rewrite <- (wrap_signed_fits bits z Hbits Hz) at 2.
      unfold wrap_signed. now rewrite Z.mod_mod by (apply Z.pow_nonzero; lia).
    + intros Hz. unfold wrap_unsigned. now apply Z.mod_small.
Qed.

End PyadsOnWindows.

(** * The properties on the sample devices *)

Example utf8_encode_Device1 :
  utf8_encode (lit "Device1") = Some (list_byte_of_string "Device1").
Proof. reflexivity. Qed.

Example utf8_euro :
  utf8_encode [0x20AC%N] = Some [xe2; x82; xac]
  /\ utf8_decode [xe2; x82; xac; x41] = Some [0x20AC%N; 0x41%N]
  /\ utf8_decode [xc0; x80] = None
  /\ utf8_encode [0xD800%N] = None.
Proof. repeat split; reflexivity. Qed.

Example str_of_int_examples :
  str_of_int (-1798) = lit "-1798" /\ str_of_int 0 = lit "0".
Proof. split; reflexivity. Qed.

Example le_bytes_1001 :
  le_bytes 4 1001 = [xe9; x03; x00; x00]
  /\ le_unsigned [xe9; x03; x00; x00] = 1001
  /\ le_signed [xff; xff; xff; xff] = -1
  /\ fill 3 [x01] = [x01; x00; x00].
Proof. repeat split; reflexivity. Qed.

(** Scenario 1 of the specification: a write by name and a read by name of a
    Boolean, each ending with the release of the handle. *)
Example write_then_read_by_name :
  let w1 := snd (adsSyncWriteByName working plc (lit "MAIN.bVar") (VBool true)
                   (Simple c_bool) start) in
  let run := adsSyncReadByName working plc (lit "MAIN.bVar") (Simple c_bool) w1 in
  fst run = Ok (VBool true)
  /\ released working (trace (snd run)) = [1001; 1001].
Proof. vm_compute. split; reflexivity. Qed.

Lemma unsupported_platform_witness :
  platform_is_windows elsewhere = false
  /\ invoke elsewhere (CallReadByName plc (lit "MAIN.bVar") (Simple c_bool)) start
     = (Raise (RuntimeError
                 (lit "adsSyncReadByName is only supported when using the TcAdsDll (win32).")),
        start).
Proof.
  split; [reflexivity|].
  exact (unsupported_platform elsewhere
           (CallReadByName plc (lit "MAIN.bVar") (Simple c_bool)) start eq_refl).
Defined.

Lemma ADSError_init_message_witness :
  ERROR_CODES working !! 6 = Some (lit "target port not found")
  /\ ERROR_CODES working !! 1798 = None
  /\ ADSError_init working 6 = ADSError 6 (lit "target port not found (6)")
  /\ ADSError_init working 1798 = ADSError 1798 (lit "Unknown Error (1798)").
Proof.
  assert (H6 : ERROR_CODES working !! 6 = Some (lit "target port not found"))
    by (vm_compute; reflexivity).
  assert (H1798 : ERROR_CODES working !! 1798 = None) by (vm_compute; reflexivity).
  split; [exact H6|]. split; [exact H1798|]. split.
  - destruct (ADSError_init_message working 6) as (msg & -> & _ & Hin & _).
    destruct (Hin _ H6) as [-> _]. reflexivity.
  - destruct (ADSError_init_message working 1798) as (msg & -> & _ & _ & Hout).
    destruct (Hout H1798) as [-> _]. reflexivity.
Defined.

Lemma request_layer_status_witness :
  let rd := CallReadReq plc 0x4020 0 (Simple c_bool) in
  let wr := CallWriteReq plc 0x4020 0 (VInt 5) PLCTYPE_STRING in
  platform_is_windows failing_first = true
  /\ request_layer rd = true
  /\ c_arguments failing_first rd = Ok (AdsSyncReadReq plc 0x4020 0 1)
  /\ invoke failing_first rd start
     = (Raise (ADSError 6 (lit "target port not found (6)")),
        log start (AdsSyncReadReq plc 0x4020 0 1))
  /\ request_layer wr = true
  /\ c_arguments failing_first wr = Raise AttributeError
  /\ invoke failing_first wr start = (Raise AttributeError, start).
Proof.
  intros rd wr.
  split; [reflexivity|]. split; [reflexivity|]. split; [reflexivity|]. split.
  - pose proof (request_layer_status failing_first eq_refl rd start eq_refl) as H.
    cbv zeta in H.
    change (c_arguments failing_first rd) with (Ok (AdsSyncReadReq plc 0x4020 0 1))
      in H.
    cbv beta iota in H. destruct H as (Hw & Hst & _).
    assert (Hr : fst (invoke failing_first rd start)
                 = Raise (ADSError 6 (lit "target port not found (6)"))).
    { apply (proj1 Hst). vm_compute. discriminate. }
    now rewrite (surjective_pairing (invoke failing_first rd start)), Hw, Hr.
  - split; [reflexivity|]. split; [reflexivity|].
    pose proof (request_layer_status failing_first eq_refl wr start eq_refl) as H.
    cbv zeta in H.
    change (c_arguments failing_first wr) with (@Raise Call AttributeError) in H.
    cbv beta iota in H. destruct H as (Hr & Hw & _).
    now rewrite (surjective_pairing (invoke failing_first wr start)), Hr, Hw.
Defined.

(** C1, counterexample (scenario 3 of the specification). The device
    resolves the name to the handle 1001 and fails the read, respectively
    the write, with the status 6: the error propagates and no release
    request has been made. *)
Lemma by_name_no_release :
  let name := lit "MAIN.bVar" in
  let rd := adsSyncReadByName failing_second plc name (Simple c_bool) start in
  let wr := adsSyncWriteByName failing_second plc name (VBool true) (Simple c_bool)
              start in
  fst (resolve failing_second plc name start) = Ok (VInt 1001)
  /\ fst rd = Raise (ADSError 6 (lit "target port not found (6)"))
  /\ released failing_second (trace (snd rd)) = []
  /\ fst wr = Raise (ADSError 6 (lit "target port not found (6)"))
  /\ released failing_second (trace (snd wr)) = []
  /\ released failing_second (trace (snd rd)) <> [1001].
Proof. vm_compute. repeat split; discriminate. Qed.

Lemma by_name_release_witness :
  let name := lit "MAIN.bVar" in
  let w1 := snd (resolve failing_second plc name start) in
  distinct_groups failing_second
  /\ resolve failing_second plc name start = (Ok (VInt 1001), w1)
  /\ exists w3 new,
       adsSyncReadByName failing_second plc name (Simple c_bool) start
       = (Raise (ADSError 6 (lit "target port not found (6)")), w3)
       /\ trace w3 = trace start ++ new
       /\ released failing_second new = [].
Proof.
  intros name w1.
  assert (Hd : distinct_groups failing_second) by (vm_compute; discriminate).
  assert (Hres : resolve failing_second plc name start = (Ok (VInt 1001), w1))
    by (vm_compute; reflexivity).
  split; [exact Hd|]. split; [exact Hres|].
  destruct (by_name_release failing_second eq_refl plc name (VBool true)
              (Simple c_bool) start 1001 w1 _ _ _ _ Hd Hres
              (surjective_pairing _) (surjective_pairing _))
    as [(r & w3 & new & Hrun & Htrace & Hrd) _].
  change (fst (adsSyncReadReq failing_second plc
                 (ADSIGRP_SYM_VALBYHND failing_second) 1001 (Simple c_bool) w1))
    with (@Raise pyval (ADSError 6 (lit "target port not found (6)"))) in Hrd.
  destruct Hrd as (-> & _ & Hrel). now exists w3, new.
Defined.

(** C2, counterexample. The device resolves the name to the handle 1001
    and fails the registration with the status 6: the error propagates and no
    release request has been made. *)
Lemma add_notification_no_release :
  let name := lit "MAIN.bVar" in
  let attrib := {| attr_length := 1; trans_mode := 4; max_delay := 0;
                   cycle_time := 0 |} in
  let run := adsSyncAddDeviceNotificationReq failing_second plc name attrib 5%nat
               None start in
  fst (resolve failing_second plc name start) = Ok (VInt 1001)
  /\ fst run = Raise (ADSError 6 (lit "target port not found (6)"))
  /\ released failing_second (trace (snd run)) = []
  /\ released failing_second (trace (snd run)) <> [1001].
Proof. vm_compute. repeat split; discriminate. Qed.

Lemma add_notification_failure_witness :
  let name := lit "MAIN.bVar" in
  let attrib := {| attr_length := 1; trans_mode := 4; max_delay := 0;
                   cycle_time := 0 |} in
  let w1 := snd (resolve failing_second plc name start) in
  let c := AdsSyncAddDeviceNotificationReq plc 0xF005 1001 attrib 5%nat 1001 in
  resolve failing_second plc name start = (Ok (VInt 1001), w1)
  /\ status_ulong failing_second w1 c <> 0
  /\ adsSyncAddDeviceNotificationReq failing_second plc name attrib 5%nat None start
     = (Raise (ADSError 6 (lit "target port not found (6)")), log w1 c).
Proof.
  intros name attrib w1 c.
  assert (Hres : resolve failing_second plc name start = (Ok (VInt 1001), w1))
    by (vm_compute; reflexivity).
  assert (Hst : status_ulong failing_second w1 c <> 0) by (vm_compute; discriminate).
  split; [exact Hres|]. split; [exact Hst|].
  exact (proj1 (add_notification_failure failing_second eq_refl plc name attrib
                  5%nat None start 1001 w1 Hres Hst)).
Defined.

(** C3, counterexample. The device fails the deregistration with the status
    6: the error propagates and no release request has been made for the
    handle 1001. *)
Lemma del_notification_no_release :
  let run := adsSyncDelDeviceNotificationReq failing_first plc 77 1001 subscribed in
  fst run = Raise (ADSError 6 (lit "target port not found (6)"))
  /\ trace (snd run) = [AdsSyncDelDeviceNotificationReq plc 77]
  /\ released failing_first (trace (snd run)) = []
  /\ released failing_first (trace (snd run)) <> [1001].
Proof. vm_compute. repeat split; discriminate. Qed.

Lemma del_notification_release_witness :
  platform_is_windows failing_first = true
  /\ fst (adsSyncDelDeviceNotificationReq failing_first plc 77 1001 subscribed)
     = Raise (ADSError 6 (lit "target port not found (6)"))
  /\ trace (snd (adsSyncDelDeviceNotificationReq working plc 77 1001 subscribed))
     = [AdsSyncDelDeviceNotificationReq plc 77; release_call working plc 1001].
Proof.
  split; [reflexivity|]. split.
  - pose proof (del_notification_release failing_first eq_refl plc 77 1001 subscribed)
      as H.
    cbv zeta in H.
    change (status failing_first subscribed
              (AdsSyncDelDeviceNotificationReq plc (wrap_unsigned 32 77)) =? 0)
      with false in H.
    exact (proj1 H).
  - pose proof (del_notification_release working eq_refl plc 77 1001 subscribed) as H.
    cbv zeta in H.
    change (status working subscribed
              (AdsSyncDelDeviceNotificationReq plc (wrap_unsigned 32 77)) =? 0)
      with true in H.
    exact (proj1 H).
Defined.

Lemma del_notification_unregisters_witness :
  platform_is_windows failing_first = true
  /\ registered subscribed 77 = Some 5%nat
  /\ registered (snd (adsSyncDelDeviceNotificationReq failing_first plc 77 1001
                        subscribed)) 77 = None
  /\ registered (snd (adsSyncDelDeviceNotificationReq working plc 77 1001
                        subscribed)) 77 = None.
Proof.
  split; [reflexivity|]. split; [reflexivity|]. split.
  - exact (proj2 (del_notification_unregisters failing_first eq_refl plc 77 1001
                    subscribed)).
  - exact (proj2 (del_notification_unregisters working eq_refl plc 77 1001
                    subscribed)).
Defined.


(** C8, counterexample. A text of [STRING_BUFFER] characters is sent whole
    with its null terminator, one byte more than the capacity; and against a
    capacity of three, a text of five bytes is not cut to two. *)
Lemma string_write_not_truncated :
  let long := repeat 0x61%N (STRING_BUFFER working) in
  let sent s := flat_map call_data
                  (trace (snd (adsSyncWriteReq working plc 0x4020 0 (VStr s)
                                 PLCTYPE_STRING start))) in
  length (sent long) = (STRING_BUFFER working + 1)%nat
  /\ sent long <> FixedString_encode (STRING_BUFFER working)
                    (repeat x61 (STRING_BUFFER working))
  /\ sent (lit "hello") = list_byte_of_string "hello" ++ [x00]
  /\ sent (lit "hello") <> FixedString_encode 3 (list_byte_of_string "hello").
Proof.
  vm_compute. split; [reflexivity|]. split; [|split; [reflexivity|]]; intros H.
  - apply (f_equal length) in H. vm_compute in H. discriminate.
  - discriminate.
Qed.

Lemma string_write_payload_witness :
  platform_is_windows working = true
  /\ utf8_encode (lit "hello") = Some (list_byte_of_string "hello")
  /\ adsSyncWriteReq working plc 0x4020 0 (VStr (lit "hello")) PLCTYPE_STRING start
     = (Ok tt,
        log start (AdsSyncWriteReq plc 0x4020 0 6 (list_byte_of_string "hello" ++ [x00])))
  /\ utf8_encode [0xD800%N] = None
  /\ adsSyncWriteReq working plc 0x4020 0 (VStr [0xD800%N]) PLCTYPE_STRING start
     = (Raise UnicodeEncodeError, start).
Proof.
  split; [reflexivity|]. split; [reflexivity|]. split; [|split; [reflexivity|]].
  - pose proof (string_write_payload working eq_refl plc 0x4020 0 0 0 (lit "hello")
                  start) as H.
    change (utf8_encode (lit "hello")) with (Some (list_byte_of_string "hello")) in H.
    cbv beta iota zeta in H. exact (proj1 H).
  - pose proof (string_write_payload working eq_refl plc 0x4020 0 0 0 [0xD800%N]
                  start) as H.
    change (utf8_encode [0xD800%N]) with (@None bytes) in H.
    cbv beta iota in H. exact (proj1 H).
Defined.

(** C9, counterexample. A buffer that starts with the byte [0xff] and a
    null byte has no decoded result: the read raises [UnicodeDecodeError]. *)
Lemma string_read_not_text :
  let run := adsSyncReadReq not_text plc 0x4020 0 PLCTYPE_STRING start in
  status not_text start (AdsSyncReadReq plc 0x4020 0 1024) = 0
  /\ until_null (received not_text 1024 start (AdsSyncReadReq plc 0x4020 0 1024)) = [xff]
  /\ fst run = Raise UnicodeDecodeError
  /\ ~ returns (fst run).
Proof.
  vm_compute. repeat split; try reflexivity. intros [a H]. discriminate.
Qed.

(** Scenario 2 of the specification. *)
Lemma string_read_decodes_witness :
  let c := AdsSyncReadReq plc 0x4020 0 1024 in
  status device1 start c = 0
  /\ utf8_encode (lit "Device1")
     = Some (until_null (received device1 (STRING_BUFFER device1) start c))
  /\ adsSyncReadReq device1 plc 0x4020 0 PLCTYPE_STRING start
     = (Ok (VStr (lit "Device1")), log start c).
Proof.
  intros c.
  assert (Hst : status device1 start c = 0) by (vm_compute; reflexivity).
  assert (Henc : utf8_encode (lit "Device1")
                 = Some (until_null (received device1 (STRING_BUFFER device1) start c)))
    by (vm_compute; reflexivity).
  split; [exact Hst|]. split; [exact Henc|].
  exact (string_read_decodes device1 eq_refl plc 0x4020 0 start (lit "Device1")
           Hst Henc).
Defined.

(** * More properties on the sample devices *)

Lemma callback_store_untouched_witness :
  notification (CallReadByName plc (lit "MAIN.bVar") (Simple c_bool)) = false
  /\ callback_store
       (snd (invoke failing_second
               (CallReadByName plc (lit "MAIN.bVar") (Simple c_bool)) subscribed))
     = callback_store subscribed.
Proof.
  split; [reflexivity|].
  exact (callback_store_untouched failing_second
           (CallReadByName plc (lit "MAIN.bVar") (Simple c_bool)) subscribed eq_refl).
Defined.

Lemma status_checked_functions_witness :
  platform_is_windows failing_first = true
  /\ status_checked CallPortClose = true
  /\ fst (invoke failing_first CallPortClose start)
     = Raise (ADSError 6 (lit "target port not found (6)"))
  /\ status_checked (CallSetTimeout 5000) = true
  /\ invoke working (CallSetTimeout 5000) start
     = (Ok RNone, log start (AdsSyncSetTimeout 5000)).
Proof.
  split; [reflexivity|]. split; [reflexivity|]. split; [|split; [reflexivity|]].
  - destruct (status_checked_functions failing_first eq_refl CallPortClose start
                eq_refl) as (c & Hw & Hst & _).
    assert (Hc : c = AdsPortClose).
    { vm_compute in Hw. now injection Hw as <-. }
    subst c. apply (proj1 Hst). vm_compute. discriminate.
  - destruct (status_checked_functions working eq_refl (CallSetTimeout 5000) start
                eq_refl) as (c & Hw & _ & _ & _).
    rewrite (surjective_pairing (invoke working (CallSetTimeout 5000) start)).
    rewrite Hw. f_equal.
    assert (Hc : c = AdsSyncSetTimeout 5000).
    { vm_compute in Hw. now injection Hw as <-. }
    now subst c.
Defined.

Lemma unchecked_functions_return_witness :
  platform_is_windows failing_first = true
  /\ adsPortOpen failing_first start = (Ok 6, log start AdsPortOpen)
  /\ returns (fst (adsGetDllVersion failing_first start)).
Proof.
  split; [reflexivity|].
  destruct (unchecked_functions_return failing_first eq_refl start)
    as [(p & Hp & -> & _) (v & Hv)].
  split; [exact Hp|]. rewrite Hv. now exists v.
Defined.

Lemma resolution_failure_witness :
  let name := lit "MAIN.bVar" in
  let w1 := snd (resolve failing_first plc name start) in
  let e := ADSError 6 (lit "target port not found (6)") in
  resolve failing_first plc name start = (Raise e, w1)
  /\ adsSyncReadByName failing_first plc name (Simple c_bool) start = (Raise e, w1)
  /\ length (trace w1) = 1%nat
  /\ resolve working plc [0xD800%N] start = (Raise UnicodeEncodeError, start)
  /\ adsSyncWriteByName working plc [0xD800%N] (VBool true) (Simple c_bool) start
     = (Raise UnicodeEncodeError, start).
Proof.
  intros name w1 e.
  assert (H1 : resolve failing_first plc name start = (Raise e, w1))
    by (vm_compute; reflexivity).
  assert (H2 : resolve working plc [0xD800%N] start = (Raise UnicodeEncodeError, start))
    by (vm_compute; reflexivity).
  split; [exact H1|]. split; [|split; [reflexivity|split; [exact H2|]]].
  - exact (proj1 (resolution_failure failing_first eq_refl plc name (Simple c_bool)
                    VNone {| attr_length := 1; trans_mode := 4; max_delay := 0;
                             cycle_time := 0 |} 5%nat None start e w1 H1)).
  - exact (proj1 (proj2 (resolution_failure working eq_refl plc [0xD800%N]
                           (Simple c_bool) (VBool true)
                           {| attr_length := 1; trans_mode := 4; max_delay := 0;
                              cycle_time := 0 |} 5%nat None start
                           UnicodeEncodeError start H2))).
Defined.

Lemma by_name_release_outcome_witness :
  let name := lit "MAIN.bVar" in
  let w1 := snd (resolve failing_third plc name start) in
  let w_rd := snd (adsSyncReadReq failing_third plc 0xF005 1001 (Simple c_bool) w1) in
  let w_wr := snd (adsSyncWriteReq failing_third plc 0xF005 1001 (VBool true)
                     (Simple c_bool) w1) in
  resolve failing_third plc name start = (Ok (VInt 1001), w1)
  /\ adsSyncReadReq failing_third plc 0xF005 1001 (Simple c_bool) w1
     = (Ok (VBool true), w_rd)
  /\ adsSyncReadByName failing_third plc name (Simple c_bool) start
     = (Raise (ADSError 6 (lit "target port not found (6)")),
        log w_rd (release_call failing_third plc 1001))
  /\ adsSyncWriteReq failing_third plc 0xF005 1001 (VBool true) (Simple c_bool) w1
     = (Ok tt, w_wr)
  /\ adsSyncWriteByName failing_third plc name (VBool true) (Simple c_bool) start
     = (Raise (ADSError 6 (lit "target port not found (6)")),
        log w_wr (release_call failing_third plc 1001)).
Proof.
  intros name w1 w_rd w_wr.
  assert (H1 : resolve failing_third plc name start = (Ok (VInt 1001), w1))
    by (vm_compute; reflexivity).
  assert (H2 : adsSyncReadReq failing_third plc 0xF005 1001 (Simple c_bool) w1
               = (Ok (VBool true), w_rd)) by (vm_compute; reflexivity).
  assert (H3 : adsSyncWriteReq failing_third plc 0xF005 1001 (VBool true)
                 (Simple c_bool) w1 = (Ok tt, w_wr)) by (vm_compute; reflexivity).
  destruct (by_name_release_outcome failing_third eq_refl plc name (VBool true)
              (Simple c_bool) start 1001 w1 H1) as [Hrd Hwr].
  split; [exact H1|]. split; [exact H2|]. split; [exact (Hrd _ _ H2)|].
  split; [exact H3|]. exact (Hwr _ H3).
Defined.

Lemma add_notification_store_witness :
  let attrib := {| attr_length := 1; trans_mode := 4; max_delay := 0;
                   cycle_time := 0 |} in
  platform_is_windows working = true
  /\ callback_store
       (snd (adsSyncAddDeviceNotificationReq working plc (lit "MAIN.bVar") attrib
               9%nat None subscribed))
     = <[77 := Some 9%nat]> (callback_store subscribed)
  /\ callback_store
       (snd (adsSyncAddDeviceNotificationReq failing_second plc (lit "MAIN.bVar")
               attrib 9%nat None subscribed))
     = callback_store subscribed.
Proof.
  intros attrib. split; [reflexivity|]. split.
  - exact (add_notification_store working eq_refl plc (lit "MAIN.bVar") attrib 9%nat
             None subscribed).
  - exact (add_notification_store failing_second eq_refl plc (lit "MAIN.bVar") attrib
             9%nat None subscribed).
Defined.

Lemma add_notification_user_handle_witness :
  let attrib := {| attr_length := 1; trans_mode := 4; max_delay := 0;
                   cycle_time := 0 |} in
  let run := adsSyncAddDeviceNotificationReq working plc (lit "MAIN.bVar") attrib
               5%nat (Some (2 ^ 32 + 42)) start in
  run = (Ok (77, VInt 1001), snd run)
  /\ exists c1,
       trace (snd run)
       = [c1; AdsSyncAddDeviceNotificationReq plc 0xF005 1001 attrib 5%nat 42].
Proof.
  intros attrib run.
  assert (Hrun : run = (Ok (77, VInt 1001), snd run)) by (vm_compute; reflexivity).
  split; [exact Hrun|].
  destruct (add_notification_user_handle working eq_refl plc (lit "MAIN.bVar") attrib
              5%nat (2 ^ 32 + 42) start 77 (VInt 1001) (snd run) Hrun)
    as (h & c1 & _ & [= <-] & Ht).
  exists c1. exact Ht.
Defined.

Lemma string_round_trip_witness :
  let s := lit "hello" in
  let sent := AdsSyncWriteReq plc 0x4020 0 6 (list_byte_of_string "hello" ++ [x00]) in
  let w2 := log start sent in
  let c := AdsSyncReadReq plc 0x4020 0 1024 in
  utf8_encode s = Some (list_byte_of_string "hello")
  /\ (0%N ∉ s)
  /\ snd (adsSyncWriteReq echoing plc 0x4020 0 (VStr s) PLCTYPE_STRING start) = w2
  /\ status echoing w2 c = 0
  /\ out (_adsDLL echoing (trace w2) c) = call_data sent
  /\ adsSyncReadReq echoing plc 0x4020 0 PLCTYPE_STRING w2 = (Ok (VStr s), log w2 c).
Proof.
  intros s sent w2 c.
  assert (H1 : utf8_encode s = Some (list_byte_of_string "hello")) by reflexivity.
  assert (H2 : 0%N ∉ s).
  { intros H. vm_compute in H. repeat (apply elem_of_cons in H as [H|H]; [discriminate|]).
    now apply elem_of_nil in H. }
  assert (H3 : snd (adsSyncWriteReq echoing plc 0x4020 0 (VStr s) PLCTYPE_STRING start)
               = w2) by (vm_compute; reflexivity).
  assert (H4 : status echoing w2 c = 0) by (vm_compute; reflexivity).
  assert (H5 : out (_adsDLL echoing (trace w2) c) = call_data sent)
    by (vm_compute; reflexivity).
  repeat (split; [assumption|]).
  refine (string_round_trip echoing eq_refl plc 0x4020 0 s
            (list_byte_of_string "hello") start sent w2 H1 H2 _ H3 H4 H5).
  vm_compute. lia.
Defined.


Lemma read_result_shaped_witness :
  let t := PyCArrayType (c_integer false W2) 3 in
  adsSyncReadReq working plc 0x4020 0 t start
  = (Ok (VList [VInt 1; VInt 0; VInt 0]), log start (AdsSyncReadReq plc 0x4020 0 6))
  /\ shaped (STRING_BUFFER working) t (VList [VInt 1; VInt 0; VInt 0]).
Proof.
  intros t.
  assert (H : adsSyncReadReq working plc 0x4020 0 t start
              = (Ok (VList [VInt 1; VInt 0; VInt 0]),
                 log start (AdsSyncReadReq plc 0x4020 0 6)))
    by (vm_compute; reflexivity).
  split; [exact H|].
  exact (read_result_shaped working eq_refl plc 0x4020 0 t start _ _ H).
Defined.

Lemma write_argument_edges_witness :
  let short := PyCArrayType (c_integer true W2) 2 in
  platform_is_windows working = true
  /\ adsSyncWriteReq working plc 0x4020 0 (VList [VInt 1; VInt 2; VInt 3]) short start
     = (Raise IndexError, start)
  /\ adsSyncWriteReq working plc 0x4020 0 (VList [VStr (lit "x"); VInt 1; VInt 2])
       short start
     = (Raise TypeError, start)
  /\ adsSyncWriteReq working plc 0x4020 0 (VInt 5) PLCTYPE_STRING start
     = (Raise AttributeError, start)
  /\ snd (adsSyncWriteReq working plc 0x4020 0 (VList [VInt 1]) short start)
     = log start (AdsSyncWriteReq plc 0x4020 0 4 [x01; x00; x00; x00]).
Proof.
  intros short. subst short.
  destruct (write_argument_edges working eq_refl plc 0x4020 0 start)
    as (H1 & H2 & H3).
  split; [reflexivity|]. split; [|split; [|split]].
  - destruct (H1 (c_integer true W2) 2%nat [VInt 1; VInt 2; VInt 3] ltac:(cbn; lia))
      as (x & Hx & _ & Hiff).
    rewrite Hx. f_equal. f_equal. apply Hiff.
    repeat (apply Forall_cons_2; [eexists; reflexivity|]). apply Forall_nil_2.
  - destruct (H1 (c_integer true W2) 2%nat [VStr (lit "x"); VInt 1; VInt 2]
                ltac:(cbn; lia)) as (x & Hx & [-> | ->] & Hiff).
    + exfalso. apply proj1 in Hiff. specialize (Hiff eq_refl).
      apply Forall_cons_1 in Hiff as [[b Hb] _]. discriminate Hb.
    + exact Hx.
  - now apply H2.
  - exact (proj2 (proj2 (H3 (c_integer true W2) 2%nat [VInt 1] [x01; x00] eq_refl))).
Defined.

Lemma integer_round_trip_witness :
  let sent := AdsSyncWriteReq plc 0x4020 0 2 [xfe; xff] in
  let w2 := log start sent in
  let c := AdsSyncReadReq plc 0x4020 0 2 in
  snd (adsSyncWriteReq echoing plc 0x4020 0 (VInt (-2)) (Simple (c_integer true W2))
         start) = w2
  /\ status echoing w2 c = 0
  /\ out (_adsDLL echoing (trace w2) c) = call_data sent
  /\ fits true W2 (-2)
  /\ adsSyncReadReq echoing plc 0x4020 0 (Simple (c_integer true W2)) w2
     = (Ok (VInt (-2)), log w2 c).
Proof.
  intros sent w2 c.
  assert (H1 : snd (adsSyncWriteReq echoing plc 0x4020 0 (VInt (-2))
                      (Simple (c_integer true W2)) start) = w2)
    by (vm_compute; reflexivity).
  assert (H2 : status echoing w2 c = 0) by (vm_compute; reflexivity).
  assert (H3 : out (_adsDLL echoing (trace w2) c) = call_data sent)
    by (vm_compute; reflexivity).
  assert (H4 : fits true W2 (-2)) by (vm_compute; split; [discriminate|reflexivity]).
  repeat (split; [assumption|]).
  destruct (integer_round_trip echoing eq_refl plc 0x4020 0 true W2 (-2) start sent
              w2 H1 H2 H3) as [Hrd Hfit].
  rewrite Hrd. now rewrite (Hfit H4).
Defined.
